(** * Cohort analysis tool: the retention engine [create_cohort_data]

    A shallow embedding of [create_cohort_data] of
    [cohort-analysis-run.py] and of the pandas operations it calls, followed
    by the properties of the engine.

    Conventions of the embedding.
    - A pandas [Timestamp] is an integer number of nanoseconds since
      1970-01-01T00:00 (the [datetime64[ns]] representation); the integers
      are unbounded, so the overflow of pandas beyond the years 1677..2262 is
      not modelled.
    - [rate] is an exact rational ([Q]) where the program has an IEEE double.
    - A missing value of the [segment] column (NaN) is [None].
    - The try/except of the program is an error value threaded through the
      three loops; [st.error] appends to a log returned next to the table. *)

From Stdlib Require Import ZArith QArith Lia List Bool Ascii String.
From Stdlib Require Import Sorted Permutation.
Import ListNotations.

Local Open Scope string_scope.
Local Open Scope list_scope.
Local Open Scope Z_scope.

(** ** The proleptic Gregorian calendar

    Day numbers count days since 1970-01-01.  The conversions split a day
    number into a 400-year era of 146097 days and a day of the era, on a
    year that starts on March 1st. *)

Module Calendar.

Definition is_leap (y : Z) : bool :=
  ((y mod 4 =? 0) && negb (y mod 100 =? 0)) || (y mod 400 =? 0).

Definition days_in_month (y m : Z) : Z :=
  if m =? 2 then (if is_leap y then 29 else 28)
  else if (m =? 4) || (m =? 6) || (m =? 9) || (m =? 11) then 30
  else 31.

(** Day of the era of the date [m]/[d] of the March-based year [yoe] of the
    era. *)
Definition doe_of_civil (yoe m d : Z) : Z :=
  let mp := if 2 <? m then m - 3 else m + 9 in
  let doy := (153 * mp + 2) / 5 + d - 1 in
  yoe * 365 + yoe / 4 - yoe / 100 + doy.

(** March-based year of the era, month and day of a day of the era. *)
Definition civil_of_doe (doe : Z) : Z * Z * Z :=
  let yoe := (doe - doe / 1460 + doe / 36524 - doe / 146096) / 365 in
  let doy := doe - (365 * yoe + yoe / 4 - yoe / 100) in
  let mp := (5 * doy + 2) / 153 in
  let d := doy - (153 * mp + 2) / 5 + 1 in
  let m := if mp <? 10 then mp + 3 else mp - 9 in
  (yoe, m, d).

Definition days_from_civil (y m d : Z) : Z :=
  let y' := if m <=? 2 then y - 1 else y in
  (y' / 400) * 146097 + doe_of_civil (y' mod 400) m d - 719468.

Definition civil_from_days (z : Z) : Z * Z * Z :=
  let z' := z + 719468 in
  let '(yoe, m, d) := civil_of_doe (z' mod 146097) in
  (yoe + (z' / 146097) * 400 + (if m <=? 2 then 1 else 0), m, d).

(** Monday is 0, Sunday is 6; 1970-01-01 was a Thursday. *)
Definition weekday (z : Z) : Z := (z + 3) mod 7.

Definition valid_date (y m d : Z) : Prop :=
  1 <= m <= 12 /\ 1 <= d <= days_in_month y m.

End Calendar.

Import Calendar.

(** ** pandas timestamps, offsets and period labels *)

Definition ns_per_day : Z := 86400000000000.

(** [pd.Timestamp(d)] of a [datetime.date] [d]: midnight of that day. *)
Definition Timestamp (d : Z) : Z := d * ns_per_day.

Definition ts_day (ts : Z) : Z := ts / ns_per_day.
Definition ts_time (ts : Z) : Z := ts mod ns_per_day.

(** [pd.Timedelta(days=n)] and [pd.Timedelta(weeks=n)]. *)
Definition Timedelta_days (n : Z) : Z := n * ns_per_day.
Definition Timedelta_weeks (n : Z) : Z := n * 7 * ns_per_day.

(** [ts + pd.DateOffset(months=k)]: the same day of the month [k] calendar
    months later, clipped to the last day of that month, at the same time of
    day. *)
Definition DateOffset_months (ts k : Z) : Z :=
  let '(y, m, d) := civil_from_days (ts_day ts) in
  let mm := m - 1 + k in
  let y' := y + mm / 12 in
  let m' := mm mod 12 + 1 in
  let d' := Z.min d (days_in_month y' m') in
  Timestamp (days_from_civil y' m' d') + ts_time ts.

(** Decimal digits and zero-padded fields of [strftime]. *)
Definition digit (n : Z) : ascii := ascii_of_N (Z.to_N (48 + n)).

Definition digit_val (c : ascii) : option Z :=
  let n := Z.of_N (N_of_ascii c) in
  if (48 <=? n) && (n <=? 57) then Some (n - 48) else None.

Definition pad2 (n : Z) : string :=
  String (digit (n / 10 mod 10)) (String (digit (n mod 10)) EmptyString).

Definition pad4 (n : Z) : string :=
  (pad2 (n / 100 mod 100) ++ pad2 (n mod 100))%string.

(** The [%Y-%m-%d] text of a day number. *)
Definition format_date (z : Z) : string :=
  let '(y, m, d) := civil_from_days z in
  (pad4 y ++ "-" ++ pad2 m ++ "-" ++ pad2 d)%string.

(** [ts.strftime('%Y-%m-%d')]. *)
Definition strftime_Ymd (ts : Z) : string := format_date (ts_day ts).

(** First day (Monday) of the week of a day number: the weeks of
    [to_period('W')] end on Sunday. *)
Definition week_start (z : Z) : Z := z - weekday z.

(** [str(ts.to_period('W'))], as in [2024-01-01/2024-01-07]. *)
Definition to_period_W_str (ts : Z) : string :=
  let s := week_start (ts_day ts) in
  (format_date s ++ "/" ++ format_date (s + 6))%string.

(** [str(ts.to_period('M'))], as in [2024-01]. *)
Definition to_period_M_str (ts : Z) : string :=
  let '(y, m, _) := civil_from_days (ts_day ts) in
  (pad4 y ++ "-" ++ pad2 m)%string.

(** Exceptions of the run and the text [str(e)] of each. *)
Inductive exn : Type :=
| KeyError (key : string)
| ValueError (msg : string).

Definition exn_str (e : exn) : string :=
  match e with
  | KeyError k => ("'" ++ k ++ "'")%string
  | ValueError m => m
  end.

Inductive result (A : Type) : Type :=
| Ok (a : A)
| Raise (e : exn).
Arguments Ok {A} a.
Arguments Raise {A} e.

Definition parse2 (a b : ascii) : option Z :=
  match digit_val a, digit_val b with
  | Some x, Some y => Some (10 * x + y)
  | _, _ => None
  end.

Definition parse4 (a b c d : ascii) : option Z :=
  match parse2 a b, parse2 c d with
  | Some x, Some y => Some (100 * x + y)
  | _, _ => None
  end.

(** Reads a leading [YYYY-MM-DD] of a text: the day number of the date and
    the rest of the text. *)
Definition parse_date (s : string) : option (Z * string) :=
  match s with
  | String y1 (String y2 (String y3 (String y4 (String sep1
      (String m1 (String m2 (String sep2 (String d1 (String d2 rest))))))))) =>
      match parse4 y1 y2 y3 y4, parse2 m1 m2, parse2 d1 d2 with
      | Some y, Some m, Some d =>
          if Ascii.eqb sep1 "-" && Ascii.eqb sep2 "-"
             && (1 <=? m) && (m <=? 12) && (1 <=? d) && (d <=? days_in_month y m)
          then Some (days_from_civil y m d, rest)
          else None
      | _, _, _ => None
      end
  | _ => None
  end.

(** Reads a text that is exactly [YYYY-MM]: the day number of the first day
    of the month. *)
Definition parse_month (s : string) : option Z :=
  match s with
  | String y1 (String y2 (String y3 (String y4 (String sep1
      (String m1 (String m2 EmptyString)))))) =>
      match parse4 y1 y2 y3 y4, parse2 m1 m2 with
      | Some y, Some m =>
          if Ascii.eqb sep1 "-" && (1 <=? m) && (m <=? 12)
          then Some (days_from_civil y m 1)
          else None
      | _, _ => None
      end
  | _ => None
  end.

(** [pd.to_datetime(s)] on the texts [strftime_Ymd] writes. *)
Definition to_datetime (s : string) : result Z :=
  match parse_date s with
  | Some (d, EmptyString) => Ok (Timestamp d)
  | _ => Raise (ValueError ("Unknown datetime string format: " ++ s))
  end.

(** [pd.Period(s).to_timestamp()]: the start of the period a label names.  A
    weekly label [start/end] must span 6 days and names the week that ends
    on [end]; a monthly label names the month; a date names the day. *)
Definition Period_to_timestamp (s : string) : result Z :=
  match parse_date s with
  | Some (d, EmptyString) => Ok (Timestamp d)
  | Some (d, String sep rest) =>
      match parse_date rest with
      | Some (d2, EmptyString) =>
          if Ascii.eqb sep "/" && (d2 - d =? 6)
          then Ok (Timestamp (d2 - 6))
          else Raise (ValueError "Could not parse as weekly-freq Period")
      | _ => Raise (ValueError ("Unknown datetime string format: " ++ s))
      end
  | None =>
      match parse_month s with
      | Some d => Ok (Timestamp d)
      | None => Raise (ValueError ("Unknown datetime string format: " ++ s))
      end
  end.

(** ** Data model *)

(** One row of the uploaded table; [segment] is [None] where the value is
    missing. *)
Record Event : Type := {
  customer_id : string;
  date : Z;
  event_type : string;
  segment : option string
}.

(** The uploaded table; the [segment] column is optional. *)
Record EventLog : Type := {
  segment_column : bool;
  events : list Event
}.

Record CohortSettings : Type := {
  cohort_basis : string;
  cohort_type : string;
  retention_event : string;
  retention_type : string
}.

(** The two [datetime.date] values of the date range, as day numbers. *)
Record DateRange : Type := {
  range_start : Z;
  range_end : Z
}.

(** One row of [cohort_data]: a customer, the date of the earliest basis
    event in range and the cohort label. *)
Record CohortRow : Type := {
  cd_customer_id : string;
  cd_date : Z;
  cd_cohort : string
}.

(** One row of the result table. *)
Module RetentionRow.
Record t : Type := {
  cohort : string;
  period : nat;
  rate : Q;
  segment : string;
  cohort_size : nat;
  retained_users : nat
}.
End RetentionRow.

(** ** Column operations of pandas and builtins of Python *)

(** [x in l], [Series.isin]. *)
Definition isin (x : string) (l : list string) : bool :=
  existsb (String.eqb x) l.

(** [Series.unique()]: the distinct values in order of first appearance. *)
Fixpoint unique (l : list string) : list string :=
  match l with
  | [] => []
  | x :: t => x :: filter (fun y => negb (String.eqb x y)) (unique t)
  end.

(** [Series.nunique()]. *)
Definition nunique (l : list string) : nat := List.length (unique l).

Fixpoint insert_sorted (x : string) (l : list string) : list string :=
  match l with
  | [] => [x]
  | y :: t => if String.leb x y then x :: l else y :: insert_sorted x t
  end.

(** [sorted(l)] on texts: ascending in the order of code points. *)
Definition sorted (l : list string) : list string :=
  fold_right insert_sorted [] l.

(** [range(n)]. *)
Definition range (n : nat) : list nat := seq 0 n.

(** The minimum of the [date] column of one group of a [groupby]. *)
Definition group_min (c : string) (rows : list Event) : Z :=
  match map date (filter (fun e => String.eqb (customer_id e) c) rows) with
  | [] => 0
  | d :: ds => fold_left Z.min ds d
  end.

(** [rows.groupby('customer_id')['date'].min().reset_index()]: one row per
    customer, in ascending order of the customer identifier. *)
Definition groupby_min (rows : list Event) : list (string * Z) :=
  map (fun c => (c, group_min c rows)) (sorted (unique (map customer_id rows))).

Definition eqb_segment (v : option string) (s : string) : bool :=
  match v with
  | Some x => String.eqb x s
  | None => false
  end.

(** ** The engine *)

Section Engine.

Variable data : EventLog.
Variable cohort_settings : CohortSettings.
Variable date_range : DateRange.

(** Lines 175-179: basis events inside the date range, both ends
    included. *)
Definition filtered_data : list Event :=
  filter (fun e =>
            (Timestamp (range_start date_range) <=? date e)
            && (date e <=? Timestamp (range_end date_range))
            && String.eqb (event_type e) (cohort_basis cohort_settings))
         (events data).

(** Lines 184-189: the label of the cohort of an anchor timestamp. *)
Definition cohort_label (ts : Z) : string :=
  if String.eqb (cohort_type cohort_settings) "Daily" then strftime_Ymd ts
  else if String.eqb (cohort_type cohort_settings) "Weekly" then to_period_W_str ts
  else to_period_M_str ts.

(** Lines 182-189. *)
Definition cohort_data : list CohortRow :=
  map (fun cd => {| cd_customer_id := fst cd;
                    cd_date := snd cd;
                    cd_cohort := cohort_label (snd cd) |})
      (groupby_min filtered_data).

(** Line 191. *)
Definition retention_events : list Event :=
  filter (fun e => String.eqb (event_type e) (retention_event cohort_settings))
         (events data).

(** [data[data['segment'] == segment]['customer_id']]. *)
Definition segment_customers (seg : string) : list string :=
  map customer_id (filter (fun e => eqb_segment (segment e) seg) (events data)).

(** Lines 195-200; reading the [segment] column of a table that has none
    raises [KeyError]. *)
Definition segment_cohorts (seg : string) : result (list CohortRow) :=
  if negb (String.eqb seg "All") then
    if segment_column data then
      Ok (filter (fun r => isin (cd_customer_id r) (segment_customers seg))
                 cohort_data)
    else Raise (KeyError "segment")
  else Ok cohort_data.

(** Line 204. *)
Definition cohort_users_of (sc : list CohortRow) (cohort : string) : list string :=
  map cd_customer_id (filter (fun r => String.eqb (cd_cohort r) cohort) sc).

(** Lines 211-214. *)
Definition cohort_start_of (cohort : string) : result Z :=
  if String.eqb (cohort_type cohort_settings) "Daily" then to_datetime cohort
  else Period_to_timestamp cohort.

(** Lines 218-226: [(period_start, period_end)]. *)
Definition period_window (cohort_start : Z) (period : nat) : Z * Z :=
  if String.eqb (cohort_type cohort_settings) "Daily" then
    let period_start := cohort_start + Timedelta_days (Z.of_nat period) in
    (period_start, period_start + Timedelta_days 1)
  else if String.eqb (cohort_type cohort_settings) "Weekly" then
    let period_start := cohort_start + Timedelta_weeks (Z.of_nat period) in
    (period_start, period_start + Timedelta_weeks 1)
  else
    let period_start := DateOffset_months cohort_start (Z.of_nat period) in
    (period_start, DateOffset_months period_start 1).

(** Lines 229-233. *)
Definition count_retained (cohort_users : list string) (w : Z * Z) : nat :=
  nunique (map customer_id
             (filter (fun e => isin (customer_id e) cohort_users
                               && (fst w <=? date e) && (date e <? snd w))
                     retention_events)).

(** Lines 235-237. *)
Definition rate_of (retained_users cohort_size : nat) : Q :=
  let rate := (inject_Z (Z.of_nat retained_users)
               / inject_Z (Z.of_nat cohort_size))%Q in
  if String.eqb (retention_type cohort_settings) "Churn Rate"
  then (1 - rate)%Q else rate.

(** Lines 228-246: the row appended for one period. *)
Definition period_row (seg cohort : string) (cohort_users : list string)
    (cohort_start : Z) (period : nat) : RetentionRow.t :=
  let retained_users :=
    count_retained cohort_users (period_window cohort_start period) in
  {| RetentionRow.cohort := cohort;
     RetentionRow.period := period;
     RetentionRow.rate := rate_of retained_users (List.length cohort_users);
     RetentionRow.segment := seg;
     RetentionRow.cohort_size := List.length cohort_users;
     RetentionRow.retained_users := retained_users |}.

(** Lines 216-246: the loop over [range(13)], appending to
    [retention_data]. *)
Fixpoint period_loop (seg cohort : string) (cohort_users : list string)
    (cohort_start : Z) (periods : list nat) (retention_data : list RetentionRow.t)
    : list RetentionRow.t :=
  match periods with
  | [] => retention_data
  | period :: rest =>
      period_loop seg cohort cohort_users cohort_start rest
        (retention_data
         ++ [period_row seg cohort cohort_users cohort_start period])
  end.

(** Lines 203-246: the loop over the sorted labels of one segment. *)
Fixpoint cohort_loop (seg : string) (sc : list CohortRow)
    (cohorts : list string) (retention_data : list RetentionRow.t)
    : result (list RetentionRow.t) :=
  match cohorts with
  | [] => Ok retention_data
  | cohort :: rest =>
      let cohort_users := cohort_users_of sc cohort in
      if (List.length cohort_users =? 0)%nat then
        cohort_loop seg sc rest retention_data
      else
        match cohort_start_of cohort with
        | Raise e => Raise e
        | Ok cohort_start =>
            cohort_loop seg sc rest
              (period_loop seg cohort cohort_users cohort_start (range 13)
                 retention_data)
        end
  end.

(** Lines 194-246: the loop over the requested segments. *)
Fixpoint segment_loop (segments : list string) (retention_data : list RetentionRow.t)
    : result (list RetentionRow.t) :=
  match segments with
  | [] => Ok retention_data
  | seg :: rest =>
      match segment_cohorts seg with
      | Raise e => Raise e
      | Ok sc =>
          match cohort_loop seg sc (sorted (unique (map cd_cohort sc)))
                  retention_data with
          | Raise e => Raise e
          | Ok retention_data' => segment_loop rest retention_data'
          end
      end
  end.

(** Lines 174-248: the body of the [try]. *)
Definition create_cohort_data_try (segments : list string)
    : result (list RetentionRow.t) :=
  segment_loop segments [].

(** Lines 172-252: the messages shown with [st.error] and the returned
    table; [pd.DataFrame()] is the table without rows. *)
Definition create_cohort_data (segments : list string)
    : list string * list RetentionRow.t :=
  match create_cohort_data_try segments with
  | Ok retention_data => ([], retention_data)
  | Raise e =>
      ([("❌ An error occurred while processing the data: " ++ exn_str e)%string],
       [])
  end.

End Engine.

(** ** Properties of the calendar

    The conversions are periodic in eras of 400 years.  Inside an era the
    year of a day is read off a quotient that grows with the day, so it is
    enough to check, by evaluation, the first and last day of each of the
    400 years and the 366 days of one year. *)

Fixpoint all_from (fuel : nat) (i : Z) (P : Z -> bool) : bool :=
  match fuel with
  | O => true
  | S k => P i && all_from k (i + 1) P
  end.

Definition all_below (n : Z) (P : Z -> bool) : bool :=
  all_from (Z.to_nat n) 0 P.

Lemma all_from_spec (fuel : nat) (P : Z -> bool) :
  forall i, all_from fuel i P = true ->
  forall j, i <= j < i + Z.of_nat fuel -> P j = true.
Proof.
  induction fuel as [|k IH]; intros i H j Hj.
  - lia.
  - cbn [all_from] in H. apply andb_true_iff in H. destruct H as [Hi Hk].
    destruct (Z.eq_dec j i) as [->|Hne]; [exact Hi|].
    apply (IH (i + 1) Hk). lia.
Qed.

Lemma all_below_spec (n : Z) (P : Z -> bool) :
  all_below n P = true -> forall i, 0 <= i < n -> P i = true.
Proof.
  unfold all_below. intros H i Hi.
  apply (all_from_spec _ _ _ H). rewrite Z2Nat.id; lia.
Qed.

Module CalendarFacts.

(** Year shift of the months January and February of a March-based year. *)
Definition jf (m : Z) : Z := if m <=? 2 then 1 else 0.

(** An order-preserving code of a date. *)
Definition date_code (c : Z * Z * Z) : Z :=
  let '(y, m, d) := c in (y * 16 + m) * 32 + d.

Definition civil_of_doe_adj (doe : Z) : Z * Z * Z :=
  let '(yoe, m, d) := civil_of_doe doe in (yoe + jf m, m, d).

(** The parts of [civil_of_doe] and [doe_of_civil]. *)
Definition yoe_num (doe : Z) : Z :=
  doe - doe / 1460 + doe / 36524 - doe / 146096.

Definition year_start (yoe : Z) : Z := yoe * 365 + yoe / 4 - yoe / 100.

(** Days of the March-based year [yoe]: its February is the one of the
    calendar year [yoe + 1]. *)
Definition year_length (yoe : Z) : Z :=
  365 + (if is_leap (yoe + 1) then 1 else 0).

Definition mp_of_doy (doy : Z) : Z := (5 * doy + 2) / 153.
Definition d_of_doy (doy : Z) : Z := doy - (153 * mp_of_doy doy + 2) / 5 + 1.
Definition month_of_mp (mp : Z) : Z := if mp <? 10 then mp + 3 else mp - 9.
Definition mp_of_month (m : Z) : Z := if 2 <? m then m - 3 else m + 9.
Definition doy_of (m d : Z) : Z := (153 * mp_of_month m + 2) / 5 + d - 1.

(** Code of the day [doy] of a March-based year, relative to the year. *)
Definition rel_code (doy : Z) : Z :=
  let m := month_of_mp (mp_of_doy doy) in
  (jf m * 16 + m) * 32 + d_of_doy doy.

Lemma civil_of_doe_parts (doe : Z) :
  civil_of_doe doe
  = (yoe_num doe / 365,
     month_of_mp (mp_of_doy (doe - year_start (yoe_num doe / 365))),
     d_of_doy (doe - year_start (yoe_num doe / 365))).
Proof.
  unfold civil_of_doe, yoe_num, year_start, month_of_mp, d_of_doy, mp_of_doy.
  cbv zeta. rewrite (Z.mul_comm 365). reflexivity.
Qed.

Lemma doe_of_civil_parts (yoe m d : Z) :
  doe_of_civil yoe m d = year_start yoe + doy_of m d.
Proof.
  unfold doe_of_civil, year_start, doy_of, mp_of_month. cbv zeta. ring.
Qed.

Definition check_year (yoe : Z) : bool :=
  (yoe_num (year_start yoe) / 365 =? yoe)
  && (yoe_num (year_start yoe + year_length yoe - 1) / 365 =? yoe)
  && (0 <=? year_start yoe)
  && (year_start yoe + year_length yoe <=? 146097)
  && (if yoe <? 399
      then year_start (yoe + 1) =? year_start yoe + year_length yoe
      else year_start yoe + year_length yoe =? 146097).

Definition check_doy (doy : Z) : bool :=
  let mp := mp_of_doy doy in
  let d := d_of_doy doy in
  let m := month_of_mp mp in
  (0 <=? mp) && (mp <=? 11) && (1 <=? d) && (d <=? days_in_month 0 m)
  && (if doy <=? 364 then d <=? days_in_month 1 m else true)
  && (if 364 <=? doy then m =? 2 else true)
  && (doy_of m d =? doy).

Definition check_month_day (m0 : Z) : bool :=
  all_below 31 (fun d0 =>
    let m := m0 + 1 in
    let d := d0 + 1 in
    if d <=? days_in_month 0 m then
      let doy := doy_of m d in
      (0 <=? doy) && (doy <=? 365)
      && (month_of_mp (mp_of_doy doy) =? m) && (d_of_doy doy =? d)
      && (if d <=? days_in_month 1 m then doy <=? 364 else true)
    else true).

Definition check_next (doy : Z) : bool := rel_code doy <? rel_code (doy + 1).

Definition check_month_length (y : Z) : bool :=
  all_below 12 (fun m0 =>
    let m := m0 + 1 in
    days_from_civil (y + m / 12) (m mod 12 + 1) 1 - days_from_civil y m 1
    =? days_in_month y m).

Lemma years_checked : all_below 400 check_year = true.
Proof. vm_cast_no_check (eq_refl true). Qed.

Lemma doys_checked : all_below 366 check_doy = true.
Proof. vm_cast_no_check (eq_refl true). Qed.

Lemma month_days_checked : all_below 12 check_month_day = true.
Proof. vm_cast_no_check (eq_refl true). Qed.

Lemma next_days_checked : all_below 365 check_next = true.
Proof. vm_cast_no_check (eq_refl true). Qed.

Lemma era_month_length_checked : all_below 400 check_month_length = true.
Proof. vm_cast_no_check (eq_refl true). Qed.

Ltac split_checks :=
  repeat match goal with
         | X : (_ && _) = true |- _ =>
             apply andb_true_iff in X; destruct X
         end;
  repeat match goal with
         | X : (_ <=? _) = true |- _ => apply Z.leb_le in X
         | X : (_ <? _) = true |- _ => apply Z.ltb_lt in X
         | X : (_ =? _) = true |- _ => apply Z.eqb_eq in X
         end.

Lemma yoe_num_step (doe : Z) :
  0 <= doe < 146096 -> yoe_num doe <= yoe_num (doe + 1).
Proof.
  intros H. unfold yoe_num.
  Z.div_mod_to_equations. lia.
Qed.

Lemma yoe_num_mono (a b : Z) :
  0 <= a -> a <= b -> b <= 146096 -> yoe_num a <= yoe_num b.
Proof.
  intros Ha Hab Hb. replace b with (a + (b - a)) in * by ring.
  assert (Hk : 0 <= b - a) by lia.
  generalize dependent (b - a). intros k Hab Hb Hk. revert Hab Hb.
  pattern k. apply natlike_ind; [| |exact Hk].
  - intros. rewrite Z.add_0_r. lia.
  - intros x Hx IH Hab Hb.
    replace (a + Z.succ x) with (a + x + 1) by lia.
    pose proof (yoe_num_step (a + x) ltac:(lia)). lia.
Qed.

Lemma year_checked (yoe : Z) :
  0 <= yoe < 400 ->
  yoe_num (year_start yoe) / 365 = yoe
  /\ yoe_num (year_start yoe + year_length yoe - 1) / 365 = yoe
  /\ 0 <= year_start yoe
  /\ year_start yoe + year_length yoe <= 146097
  /\ (yoe < 399 -> year_start (yoe + 1) = year_start yoe + year_length yoe)
  /\ 365 <= year_length yoe <= 366.
Proof.
  intros H. pose proof (all_below_spec _ _ years_checked yoe H) as C.
  unfold check_year in C. split_checks.
  repeat split; try assumption.
  - intros Hlt. destruct (Z.ltb_spec yoe 399); [|lia]. now apply Z.eqb_eq.
  - unfold year_length. destruct (is_leap _); lia.
  - unfold year_length. destruct (is_leap _); lia.
Qed.

(** The year of a day of the era: the days of the year [yoe] are those from
    [year_start yoe] on, [year_length yoe] of them. *)
Lemma yoe_of_year (yoe doe : Z) :
  0 <= yoe < 400 ->
  year_start yoe <= doe < year_start yoe + year_length yoe ->
  yoe_num doe / 365 = yoe.
Proof.
  intros Hy Hd.
  destruct (year_checked yoe Hy) as (H1 & H2 & H3 & H4 & _ & _).
  apply Z.le_antisymm.
  - apply Z.le_trans
      with (yoe_num (year_start yoe + year_length yoe - 1) / 365); [|lia].
    apply Z.div_le_mono; [lia|]. apply yoe_num_mono; lia.
  - apply Z.le_trans with (yoe_num (year_start yoe) / 365); [lia|].
    apply Z.div_le_mono; [lia|]. apply yoe_num_mono; lia.
Qed.

Lemma yoe_num_bounds (doe : Z) :
  0 <= doe < 146097 -> 0 <= yoe_num doe / 365 < 400.
Proof.
  intros Hd. split.
  - change 0 with (yoe_num 0 / 365) at 1. apply Z.div_le_mono; [lia|].
    apply yoe_num_mono; lia.
  - apply Z.le_lt_trans with (yoe_num 146096 / 365); [|reflexivity].
    apply Z.div_le_mono; [lia|]. apply yoe_num_mono; lia.
Qed.

Lemma year_of_doe (doe : Z) :
  0 <= doe < 146097 ->
  0 <= yoe_num doe / 365 < 400
  /\ year_start (yoe_num doe / 365) <= doe
     < year_start (yoe_num doe / 365) + year_length (yoe_num doe / 365).
Proof.
  intros Hd. pose proof (yoe_num_bounds doe Hd) as Hy.
  remember (yoe_num doe / 365) as y eqn:Ey.
  split; [exact Hy|].
  destruct (year_checked y Hy) as (_ & _ & H3 & H4 & H5 & H6).
  split.
  - destruct (Z.le_gt_cases (year_start y) doe) as [L|G]; [exact L|exfalso].
    assert (Hy1 : 0 <= y - 1 < 399).
    { destruct (Z.eq_dec y 0) as [E|E]; [|lia].
      rewrite E in G. change (year_start 0) with 0 in G. lia. }
    destruct (year_checked (y - 1) ltac:(lia)) as (Q1 & _ & P3 & P4 & P5 & P6).
    specialize (P5 ltac:(lia)). replace (y - 1 + 1) with y in P5 by ring.
    destruct (Z.le_gt_cases (year_start (y - 1)) doe) as [L|L].
    + pose proof (yoe_of_year (y - 1) doe ltac:(lia) ltac:(lia)) as C. lia.
    + assert (M : yoe_num doe <= yoe_num (year_start (y - 1)))
        by (apply yoe_num_mono; lia).
      apply (Z.div_le_mono _ _ 365 ltac:(lia)) in M. lia.
  - destruct (Z.lt_ge_cases doe (year_start y + year_length y)) as [L|G];
      [exact L|exfalso].
    assert (Hy1 : y < 399).
    { destruct (Z.ltb_spec y 399) as [E|E]; [exact E|].
      assert (E9 : y = 399) by lia. rewrite E9 in G.
      pose proof (all_below_spec _ _ years_checked 399 ltac:(lia)) as C.
      unfold check_year in C. split_checks.
      change (399 <? 399) with false in *. cbv iota in *.
      match goal with X : (_ =? 146097) = true |- _ =>
        apply Z.eqb_eq in X end.
      lia. }
    specialize (H5 Hy1).
    destruct (year_checked (y + 1) ltac:(lia)) as (Q1 & _ & Q3 & Q4 & _ & Q6).
    assert (M : yoe_num (year_start (y + 1)) <= yoe_num doe)
      by (apply yoe_num_mono; lia).
    apply (Z.div_le_mono _ _ 365 ltac:(lia)) in M. lia.
Qed.

Lemma days_in_month_leap (y m : Z) :
  days_in_month y m
  = if is_leap y then days_in_month 0 m else days_in_month 1 m.
Proof.
  unfold days_in_month. change (is_leap 0) with true.
  change (is_leap 1) with false.
  destruct (is_leap y), (m =? 2); reflexivity.
Qed.

Lemma days_in_month_not_feb (y m : Z) :
  m <> 2 -> days_in_month y m = days_in_month 1 m.
Proof.
  intros H. unfold days_in_month.
  destruct (Z.eqb_spec m 2); [contradiction | reflexivity].
Qed.

Lemma year_length_leap (yoe : Z) :
  year_length yoe = 365 + (if is_leap (yoe + 1) then 1 else 0).
Proof. reflexivity. Qed.

Lemma doy_checked (doy : Z) :
  0 <= doy < 366 ->
  0 <= mp_of_doy doy <= 11
  /\ 1 <= d_of_doy doy <= days_in_month 0 (month_of_mp (mp_of_doy doy))
  /\ (doy <= 364 ->
      d_of_doy doy <= days_in_month 1 (month_of_mp (mp_of_doy doy)))
  /\ (364 <= doy -> month_of_mp (mp_of_doy doy) = 2)
  /\ doy_of (month_of_mp (mp_of_doy doy)) (d_of_doy doy) = doy.
Proof.
  intros H. pose proof (all_below_spec _ _ doys_checked doy H) as C.
  unfold check_doy in C. cbv zeta in C. split_checks.
  repeat split; try assumption.
  - intros Hle. destruct (Z.leb_spec doy 364); [|lia]. now apply Z.leb_le.
  - intros Hge. destruct (Z.leb_spec 364 doy); [|lia]. now apply Z.eqb_eq.
Qed.

Lemma month_of_mp_bounds (mp : Z) :
  0 <= mp <= 11 -> 1 <= month_of_mp mp <= 12.
Proof. unfold month_of_mp. destruct (Z.ltb_spec mp 10); lia. Qed.

Lemma civil_of_doe_ok (doe yoe m d : Z) :
  0 <= doe < 146097 -> civil_of_doe doe = (yoe, m, d) ->
  0 <= yoe < 400 /\ 1 <= m <= 12 /\ 1 <= d <= days_in_month (yoe + jf m) m
  /\ doe_of_civil yoe m d = doe.
Proof.
  intros Hdoe E. rewrite civil_of_doe_parts in E.
  destruct (year_of_doe doe Hdoe) as (Hy & Hlo & Hhi).
  remember (yoe_num doe / 365) as y eqn:Ey.
  remember (doe - year_start y) as doy eqn:Edoy.
  injection E as <- <- <-.
  destruct (year_checked y Hy) as (_ & _ & _ & _ & _ & Hlen).
  destruct (doy_checked doy ltac:(lia)) as (Hmp & Hd & Hd1 & Hfeb & Hinv).
  pose proof (month_of_mp_bounds _ Hmp) as Hm.
  split; [exact Hy|]. split; [exact Hm|]. split.
  - split; [apply Hd|]. rewrite days_in_month_leap.
    destruct (is_leap (y + jf (month_of_mp (mp_of_doy doy)))) eqn:L;
      [apply Hd|].
    apply Hd1. destruct (Z.le_gt_cases doy 364) as [H|H]; [exact H|exfalso].
    rewrite (Hfeb ltac:(lia)) in L. change (jf 2) with 1 in L.
    rewrite year_length_leap, L in Hhi. lia.
  - rewrite doe_of_civil_parts, Hinv. lia.
Qed.

Lemma month_day_checked (m d : Z) :
  1 <= m <= 12 -> 1 <= d <= days_in_month 0 m ->
  0 <= doy_of m d <= 365
  /\ month_of_mp (mp_of_doy (doy_of m d)) = m
  /\ d_of_doy (doy_of m d) = d
  /\ (d <= days_in_month 1 m -> doy_of m d <= 364).
Proof.
  intros Hm Hd.
  assert (Hd31 : d <= 31).
  { destruct Hd as [_ Hd]. unfold days_in_month in Hd.
    repeat match type of Hd with context [if ?b then _ else _] => destruct b end;
      lia. }
  pose proof (all_below_spec _ _ month_days_checked (m - 1) ltac:(lia)) as C.
  unfold check_month_day in C.
  pose proof (all_below_spec _ _ C (d - 1) ltac:(lia)) as C1.
  cbv beta zeta in C1.
  replace (m - 1 + 1) with m in C1 by ring.
  replace (d - 1 + 1) with d in C1 by ring.
  destruct (Z.leb_spec d (days_in_month 0 m)) as [_|Hbad]; [|lia].
  split_checks. repeat split; try assumption.
  intros Hle. destruct (Z.leb_spec d (days_in_month 1 m)); [|lia].
  now apply Z.leb_le.
Qed.

Lemma doe_of_civil_ok (yoe m d : Z) :
  0 <= yoe < 400 -> 1 <= m <= 12 -> 1 <= d <= days_in_month (yoe + jf m) m ->
  0 <= doe_of_civil yoe m d < 146097
  /\ civil_of_doe (doe_of_civil yoe m d) = (yoe, m, d).
Proof.
  intros Hy Hm Hd.
  assert (Hd0 : 1 <= d <= days_in_month 0 m).
  { rewrite days_in_month_leap in Hd.
    destruct (is_leap (yoe + jf m)); [exact Hd|].
    split; [apply Hd|]. etransitivity; [apply Hd|].
    unfold days_in_month. change (is_leap 0) with true.
    change (is_leap 1) with false. destruct (m =? 2); [lia|reflexivity]. }
  destruct (month_day_checked m d Hm Hd0) as (Hdoy & Hmi & Hdi & H364).
  destruct (year_checked yoe Hy) as (_ & _ & H3 & H4 & _ & Hlen).
  assert (Hin : year_start yoe <= doe_of_civil yoe m d
                < year_start yoe + year_length yoe).
  { rewrite doe_of_civil_parts. split; [lia|].
    rewrite year_length_leap. destruct (is_leap (yoe + 1)) eqn:L; [lia|].
    assert (doy_of m d <= 364); [|lia]. apply H364.
    destruct (Z.eq_dec m 2) as [->|Hne].
    - change (jf 2) with 1 in Hd. rewrite days_in_month_leap, L in Hd.
      apply Hd.
    - rewrite <- (days_in_month_not_feb (yoe + jf m) m Hne). apply Hd. }
  split; [lia|].
  rewrite civil_of_doe_parts, (yoe_of_year yoe _ Hy Hin).
  rewrite doe_of_civil_parts.
  replace (year_start yoe + doy_of m d - year_start yoe) with (doy_of m d)
    by ring.
  now rewrite Hmi, Hdi.
Qed.

(** Within an era the code of the date grows from one day to the next. *)
Lemma era_step (r : Z) :
  0 <= r < 146096 ->
  date_code (civil_of_doe_adj r) < date_code (civil_of_doe_adj (r + 1)).
Proof.
  intros Hr. unfold civil_of_doe_adj. rewrite !civil_of_doe_parts.
  destruct (year_of_doe r ltac:(lia)) as (Hy & Hlo & Hhi).
  remember (yoe_num r / 365) as y eqn:Ey.
  destruct (year_checked y Hy) as (_ & _ & H3 & H4 & H5 & Hlen).
  destruct (Z.lt_ge_cases (r + 1) (year_start y + year_length y)) as [In|Out].
  - rewrite (yoe_of_year y (r + 1) Hy ltac:(lia)).
    replace (r + 1 - year_start y) with (r - year_start y + 1) by ring.
    remember (r - year_start y) as doy eqn:Edoy.
    pose proof (all_below_spec _ _ next_days_checked doy ltac:(lia)) as C.
    unfold check_next, rel_code in C. cbv zeta in C. apply Z.ltb_lt in C.
    unfold date_code. lia.
  - assert (Hy1 : y < 399).
    { destruct (Z.eq_dec y 399) as [E9|N9]; [exfalso|lia].
      rewrite E9 in Out.
      change (year_start 399 + year_length 399) with 146097 in Out. lia. }
    specialize (H5 Hy1).
    assert (E1 : r + 1 = year_start (y + 1)) by lia.
    destruct (year_checked (y + 1) ltac:(lia)) as (Q1 & _ & _ & _ & _ & Q6).
    rewrite (yoe_of_year (y + 1) (r + 1) ltac:(lia) ltac:(lia)).
    replace (r + 1 - year_start (y + 1)) with 0 by lia.
    change (month_of_mp (mp_of_doy 0)) with 3. change (d_of_doy 0) with 1.
    change (jf 3) with 0.
    remember (r - year_start y) as doy eqn:Edoy.
    destruct (doy_checked doy ltac:(lia)) as (_ & Hd & _ & Hfeb & _).
    rewrite (Hfeb ltac:(lia)) in *. change (jf 2) with 1.
    change (days_in_month 0 2) with 29 in Hd.
    unfold date_code. lia.
Qed.

Lemma is_leap_era (y k : Z) : is_leap (y + k * 400) = is_leap y.
Proof.
  unfold is_leap.
  replace ((y + k * 400) mod 4) with (y mod 4)
    by (replace (k * 400) with (k * 100 * 4) by ring; now rewrite Z.mod_add).
  replace ((y + k * 400) mod 100) with (y mod 100)
    by (replace (k * 400) with (k * 4 * 100) by ring; now rewrite Z.mod_add).
  now rewrite Z.mod_add.
Qed.

Lemma days_in_month_era (y k m : Z) :
  days_in_month (y + k * 400) m = days_in_month y m.
Proof. unfold days_in_month. now rewrite is_leap_era. Qed.

Lemma days_from_civil_era (y k m d : Z) :
  days_from_civil (y + k * 400) m d = days_from_civil y m d + k * 146097.
Proof.
  unfold days_from_civil.
  destruct (m <=? 2).
  - replace (y + k * 400 - 1) with (y - 1 + k * 400) by ring.
    rewrite Z.div_add, Z.mod_add by lia. ring.
  - rewrite Z.div_add, Z.mod_add by lia. ring.
Qed.

Lemma days_from_civil_from_days (z y m d : Z) :
  civil_from_days z = (y, m, d) -> days_from_civil y m d = z.
Proof.
  unfold civil_from_days. intros E.
  destruct (civil_of_doe ((z + 719468) mod 146097)) as [[yoe m'] d'] eqn:Ed.
  injection E as <- <- <-.
  pose proof (Z.mod_pos_bound (z + 719468) 146097 ltac:(lia)) as Hb.
  destruct (civil_of_doe_ok _ _ _ _ Hb Ed) as (Hy & Hm & Hd & Hdoe).
  unfold days_from_civil.
  replace (if m' <=? 2
           then yoe + (z + 719468) / 146097 * 400 + (if m' <=? 2 then 1 else 0) - 1
           else yoe + (z + 719468) / 146097 * 400 + (if m' <=? 2 then 1 else 0))
    with (yoe + (z + 719468) / 146097 * 400)
    by (destruct (m' <=? 2); ring).
  rewrite Z.div_add, Z.mod_add by lia.
  rewrite Z.div_small, Z.mod_small by lia.
  rewrite Hdoe.
  pose proof (Z.div_mod (z + 719468) 146097 ltac:(lia)). lia.
Qed.

Lemma civil_from_days_valid (z y m d : Z) :
  civil_from_days z = (y, m, d) -> valid_date y m d.
Proof.
  unfold civil_from_days. intros E.
  destruct (civil_of_doe ((z + 719468) mod 146097)) as [[yoe m'] d'] eqn:Ed.
  injection E as <- <- <-.
  pose proof (Z.mod_pos_bound (z + 719468) 146097 ltac:(lia)) as Hb.
  destruct (civil_of_doe_ok _ _ _ _ Hb Ed) as (Hy & Hm & Hd & Hdoe).
  split; [exact Hm|].
  replace (yoe + (z + 719468) / 146097 * 400 + (if m' <=? 2 then 1 else 0))
    with (yoe + jf m' + (z + 719468) / 146097 * 400) by (unfold jf; ring).
  now rewrite days_in_month_era.
Qed.

Lemma civil_from_days_from_civil (y m d : Z) :
  valid_date y m d -> civil_from_days (days_from_civil y m d) = (y, m, d).
Proof.
  intros [Hm Hd].
  unfold days_from_civil, civil_from_days.
  set (y' := if m <=? 2 then y - 1 else y).
  assert (Hy' : y = y' + jf m) by (unfold y', jf; destruct (m <=? 2); ring).
  pose proof (Z.mod_pos_bound y' 400 ltac:(lia)) as Hyoe.
  pose proof (Z.div_mod y' 400 ltac:(lia)) as Hdm.
  assert (Hd' : 1 <= d <= days_in_month (y' mod 400 + jf m) m).
  { replace (y' mod 400 + jf m) with (y + (- (y' / 400)) * 400) by lia.
    now rewrite days_in_month_era. }
  destruct (doe_of_civil_ok _ _ _ Hyoe Hm Hd') as [Hb Hc].
  replace (y' / 400 * 146097 + doe_of_civil (y' mod 400) m d - 719468 + 719468)
    with (doe_of_civil (y' mod 400) m d + y' / 400 * 146097) by ring.
  rewrite Z.mod_add, Z.div_add by lia.
  rewrite Z.mod_small, Z.div_small by lia.
  rewrite Hc. f_equal. f_equal. unfold jf in Hy'. lia.
Qed.

Lemma civil_of_doe_first : civil_of_doe 0 = (0, 3, 1).
Proof. vm_compute. reflexivity. Qed.

Lemma civil_of_doe_last : civil_of_doe 146096 = (399, 2, 29).
Proof. vm_compute. reflexivity. Qed.

Lemma civil_step (z : Z) :
  date_code (civil_from_days z) < date_code (civil_from_days (z + 1)).
Proof.
  unfold civil_from_days.
  pose proof (Z.mod_pos_bound (z + 719468) 146097 ltac:(lia)) as Hb.
  pose proof (Z.div_mod (z + 719468) 146097 ltac:(lia)) as Hdm.
  set (e := (z + 719468) / 146097) in *.
  set (r := (z + 719468) mod 146097) in *.
  destruct (Z.eq_dec r 146096) as [Hr|Hr].
  - replace (z + 1 + 719468) with (0 + (e + 1) * 146097) by lia.
    rewrite Z.mod_add, Z.div_add by lia.
    rewrite Hr, Z.mod_0_l, Z.div_0_l by lia.
    rewrite civil_of_doe_last, civil_of_doe_first.
    unfold date_code. change (2 <=? 2) with true. change (3 <=? 2) with false.
    cbv iota.
    lia.
  - replace (z + 1 + 719468) with (r + 1 + e * 146097) by lia.
    rewrite Z.mod_add, Z.div_add by lia.
    rewrite Z.mod_small, Z.div_small by lia.
    pose proof (era_step r ltac:(lia)) as C.
    unfold civil_of_doe_adj in C.
    destruct (civil_of_doe r) as [[y1 m1] d1].
    destruct (civil_of_doe (r + 1)) as [[y2 m2] d2].
    unfold date_code, jf in *. lia.
Qed.

Lemma civil_mono (z1 z2 : Z) :
  z1 < z2 -> date_code (civil_from_days z1) < date_code (civil_from_days z2).
Proof.
  intros H. replace z2 with (z1 + 1 + (z2 - z1 - 1)) by ring.
  assert (Hk : 0 <= z2 - z1 - 1) by lia.
  generalize dependent (z2 - z1 - 1). intros k Hk.
  pattern k. apply natlike_ind; [| |exact Hk].
  - rewrite Z.add_0_r. apply civil_step.
  - intros x Hx IH. replace (z1 + 1 + Z.succ x) with (z1 + 1 + x + 1) by lia.
    pose proof (civil_step (z1 + 1 + x)). lia.
Qed.

Lemma civil_compare (z1 z2 : Z) :
  (date_code (civil_from_days z1) ?= date_code (civil_from_days z2))
  = (z1 ?= z2).
Proof.
  destruct (Z.compare_spec z1 z2) as [->|H|H].
  - apply Z.compare_refl.
  - apply Z.compare_lt_iff. now apply civil_mono.
  - apply Z.compare_gt_iff. now apply civil_mono.
Qed.

Lemma month_length (y m : Z) :
  1 <= m <= 12 ->
  days_from_civil (y + m / 12) (m mod 12 + 1) 1 - days_from_civil y m 1
  = days_in_month y m.
Proof.
  intros Hm.
  pose proof (Z.mod_pos_bound y 400 ltac:(lia)) as Hb.
  pose proof (Z.div_mod y 400 ltac:(lia)) as Hdm.
  pose proof (all_below_spec _ _ era_month_length_checked _ Hb) as C.
  unfold check_month_length in C.
  pose proof (all_below_spec _ _ C (m - 1) ltac:(lia)) as C1. cbv beta zeta in C1.
  replace (m - 1 + 1) with m in C1 by ring. apply Z.eqb_eq in C1.
  replace y with (y mod 400 + (y / 400) * 400) by lia.
  replace (y mod 400 + y / 400 * 400 + m / 12)
    with (y mod 400 + m / 12 + y / 400 * 400) by ring.
  rewrite !days_from_civil_era, days_in_month_era. lia.
Qed.

End CalendarFacts.

(** ** Labels: reading back what [strftime] and [str(Period)] write *)

Module LabelFacts.
Import CalendarFacts.

(** Lexicographic combination of two comparisons. *)
Definition lex (c1 c2 : comparison) : comparison :=
  match c1 with
  | Eq => c2
  | _ => c1
  end.

Lemma append_assoc (a b c : string) :
  ((a ++ b) ++ c = a ++ (b ++ c))%string.
Proof. induction a as [|x a IH]; simpl; [reflexivity | now rewrite IH]. Qed.

Lemma sep_app (c : ascii) (x : string) :
  (String c EmptyString ++ x)%string = String c x.
Proof. reflexivity. Qed.

Lemma append_nil (a : string) : (a ++ "")%string = a.
Proof. induction a as [|x a IH]; simpl; [reflexivity | now rewrite IH]. Qed.

Lemma string_compare_refl (s : string) : String.compare s s = Eq.
Proof.
  induction s as [|c s IH]; [reflexivity|].
  cbn [String.compare]. unfold Ascii.compare. now rewrite N.compare_refl.
Qed.

Lemma digit_cases (n : Z) :
  0 <= n < 10 -> In n [0; 1; 2; 3; 4; 5; 6; 7; 8; 9].
Proof. cbn [In]. lia. Qed.

Ltac each_digit n H :=
  let C := fresh "C" in
  pose proof (digit_cases n H) as C; cbn [In] in C;
  destruct C as [<-|[<-|[<-|[<-|[<-|[<-|[<-|[<-|[<-|[<-|[]]]]]]]]]]].

Lemma digit_val_digit (n : Z) : 0 <= n < 10 -> digit_val (digit n) = Some n.
Proof. intros H. each_digit n H; reflexivity. Qed.

Lemma digit_compare (a b : Z) :
  0 <= a < 10 -> 0 <= b < 10 -> Ascii.compare (digit a) (digit b) = (a ?= b).
Proof. intros Ha Hb. each_digit a Ha; each_digit b Hb; reflexivity. Qed.

Lemma parse2_pad2 (n : Z) (rest : string) :
  0 <= n < 100 ->
  exists a b, (pad2 n ++ rest)%string = String a (String b rest)
              /\ parse2 a b = Some n.
Proof.
  intros H. exists (digit (n / 10 mod 10)), (digit (n mod 10)).
  split; [reflexivity|].
  unfold parse2.
  pose proof (Z.mod_pos_bound n 10 ltac:(lia)).
  pose proof (Z.mod_pos_bound (n / 10) 10 ltac:(lia)).
  rewrite !digit_val_digit by lia.
  f_equal. rewrite Z.mod_small by (split; [apply Z.div_pos; lia |
    apply Z.div_lt_upper_bound; lia]).
  pose proof (Z.div_mod n 10 ltac:(lia)). lia.
Qed.

Lemma parse4_pad4 (n : Z) (rest : string) :
  0 <= n < 10000 ->
  exists a b c d,
    (pad4 n ++ rest)%string = String a (String b (String c (String d rest)))
    /\ parse4 a b c d = Some n.
Proof.
  intros H. unfold pad4. rewrite append_assoc.
  pose proof (Z.mod_pos_bound n 100 ltac:(lia)) as H1.
  pose proof (Z.mod_pos_bound (n / 100) 100 ltac:(lia)) as H2.
  destruct (parse2_pad2 (n mod 100) rest H1) as (c & d & E1 & P1).
  rewrite E1.
  destruct (parse2_pad2 (n / 100 mod 100) (String c (String d rest)) H2)
    as (a & b & E2 & P2).
  rewrite E2. exists a, b, c, d. split; [reflexivity|].
  unfold parse4. rewrite P1, P2. f_equal.
  rewrite Z.mod_small by (split; [apply Z.div_pos; lia |
    apply Z.div_lt_upper_bound; lia]).
  pose proof (Z.div_mod n 100 ltac:(lia)). lia.
Qed.

Lemma pad2_compare (a b : Z) (s t : string) :
  0 <= a < 100 -> 0 <= b < 100 ->
  String.compare (pad2 a ++ s) (pad2 b ++ t)
  = lex (a ?= b) (String.compare s t).
Proof.
  intros Ha Hb. unfold pad2. cbn [append String.compare].
  assert (Hqa : 0 <= a / 10 < 10)
    by (split; [apply Z.div_pos; lia | apply Z.div_lt_upper_bound; lia]).
  assert (Hqb : 0 <= b / 10 < 10)
    by (split; [apply Z.div_pos; lia | apply Z.div_lt_upper_bound; lia]).
  pose proof (Z.mod_pos_bound a 10 ltac:(lia)) as Hra.
  pose proof (Z.mod_pos_bound b 10 ltac:(lia)) as Hrb.
  pose proof (Z.div_mod a 10 ltac:(lia)) as Ea.
  pose proof (Z.div_mod b 10 ltac:(lia)) as Eb.
  rewrite (Z.mod_small (a / 10)), (Z.mod_small (b / 10)) by lia.
  rewrite !digit_compare by lia.
  destruct (Z.compare_spec (a / 10) (b / 10)) as [Hq|Hq|Hq].
  - destruct (Z.compare_spec (a mod 10) (b mod 10)) as [Hr|Hr|Hr].
    + replace (a ?= b) with Eq by (symmetry; apply Z.compare_eq_iff; lia).
      reflexivity.
    + replace (a ?= b) with Lt by (symmetry; apply Z.compare_lt_iff; lia).
      reflexivity.
    + replace (a ?= b) with Gt by (symmetry; apply Z.compare_gt_iff; lia).
      reflexivity.
  - replace (a ?= b) with Lt by (symmetry; apply Z.compare_lt_iff; lia).
    reflexivity.
  - replace (a ?= b) with Gt by (symmetry; apply Z.compare_gt_iff; lia).
    reflexivity.
Qed.

Lemma pad4_compare (a b : Z) (s t : string) :
  0 <= a < 10000 -> 0 <= b < 10000 ->
  String.compare (pad4 a ++ s) (pad4 b ++ t)
  = lex (a ?= b) (String.compare s t).
Proof.
  intros Ha Hb. unfold pad4. rewrite !append_assoc.
  assert (Hqa : 0 <= a / 100 < 100)
    by (split; [apply Z.div_pos; lia | apply Z.div_lt_upper_bound; lia]).
  assert (Hqb : 0 <= b / 100 < 100)
    by (split; [apply Z.div_pos; lia | apply Z.div_lt_upper_bound; lia]).
  pose proof (Z.mod_pos_bound a 100 ltac:(lia)) as Hra.
  pose proof (Z.mod_pos_bound b 100 ltac:(lia)) as Hrb.
  pose proof (Z.div_mod a 100 ltac:(lia)) as Ea.
  pose proof (Z.div_mod b 100 ltac:(lia)) as Eb.
  rewrite (Z.mod_small (a / 100)), (Z.mod_small (b / 100)) by lia.
  rewrite !pad2_compare by lia.
  destruct (Z.compare_spec (a / 100) (b / 100)) as [Hq|Hq|Hq].
  - destruct (Z.compare_spec (a mod 100) (b mod 100)) as [Hr|Hr|Hr].
    + replace (a ?= b) with Eq by (symmetry; apply Z.compare_eq_iff; lia).
      reflexivity.
    + replace (a ?= b) with Lt by (symmetry; apply Z.compare_lt_iff; lia).
      reflexivity.
    + replace (a ?= b) with Gt by (symmetry; apply Z.compare_gt_iff; lia).
      reflexivity.
  - replace (a ?= b) with Lt by (symmetry; apply Z.compare_lt_iff; lia).
    reflexivity.
  - replace (a ?= b) with Gt by (symmetry; apply Z.compare_gt_iff; lia).
    reflexivity.
Qed.

(** The year of a day number is written with four digits. *)
Definition four_digit_year (z : Z) : Prop :=
  0 <= fst (fst (civil_from_days z)) <= 9999.

Lemma days_in_month_le_31 (y m : Z) : days_in_month y m <= 31.
Proof.
  unfold days_in_month.
  repeat match goal with |- context [if ?b then _ else _] => destruct b end; lia.
Qed.

Lemma four_digit_year_range (z : Z) :
  -719528 <= z <= 2932896 -> four_digit_year z.
Proof.
  intros [Hlo Hhi]. unfold four_digit_year.
  destruct (civil_from_days z) as [[y m] d] eqn:E.
  destruct (civil_from_days_valid _ _ _ _ E) as [Hm Hd].
  pose proof (days_in_month_le_31 y m) as H31.
  assert (L : date_code (civil_from_days (-719528)) <= date_code (y, m, d)).
  { rewrite <- E. destruct (Z.eq_dec (-719528) z) as [->|Hne]; [lia|].
    apply Z.lt_le_incl, civil_mono. lia. }
  assert (U : date_code (y, m, d) <= date_code (civil_from_days 2932896)).
  { rewrite <- E. destruct (Z.eq_dec z 2932896) as [->|Hne]; [lia|].
    apply Z.lt_le_incl, civil_mono. lia. }
  change (civil_from_days (-719528)) with (0, 1, 1) in L.
  change (civil_from_days 2932896) with (9999, 12, 31) in U.
  unfold date_code in L, U. simpl. lia.
Qed.

Lemma date_code_compare (y1 m1 d1 y2 m2 d2 : Z) :
  1 <= m1 <= 12 -> 1 <= d1 <= 31 -> 1 <= m2 <= 12 -> 1 <= d2 <= 31 ->
  lex (y1 ?= y2) (lex (m1 ?= m2) (d1 ?= d2))
  = (date_code (y1, m1, d1) ?= date_code (y2, m2, d2)).
Proof.
  intros Hm1 Hd1 Hm2 Hd2. unfold date_code. symmetry.
  destruct (Z.compare_spec y1 y2) as [Hy|Hy|Hy]; cbn [lex].
  - destruct (Z.compare_spec m1 m2) as [Hm|Hm|Hm]; cbn [lex].
    + subst. destruct (Z.compare_spec d1 d2) as [Hd|Hd|Hd].
      * apply Z.compare_eq_iff; lia.
      * apply Z.compare_lt_iff; lia.
      * apply Z.compare_gt_iff; lia.
    + apply Z.compare_lt_iff; lia.
    + apply Z.compare_gt_iff; lia.
  - apply Z.compare_lt_iff; lia.
  - apply Z.compare_gt_iff; lia.
Qed.

(** The order of the texts of two dates is the order of the dates. *)
Lemma format_date_compare (z1 z2 : Z) (s t : string) :
  four_digit_year z1 -> four_digit_year z2 ->
  String.compare (format_date z1 ++ s) (format_date z2 ++ t)
  = lex (z1 ?= z2) (String.compare s t).
Proof.
  unfold four_digit_year, format_date. intros H1 H2.
  rewrite <- civil_compare.
  destruct (civil_from_days z1) as [[y1 m1] d1] eqn:E1.
  destruct (civil_from_days z2) as [[y2 m2] d2] eqn:E2.
  destruct (civil_from_days_valid _ _ _ _ E1) as [Hm1 Hd1].
  destruct (civil_from_days_valid _ _ _ _ E2) as [Hm2 Hd2].
  pose proof (days_in_month_le_31 y1 m1). pose proof (days_in_month_le_31 y2 m2).
  simpl in H1, H2.
  rewrite <- date_code_compare by lia.
  rewrite !append_assoc, !sep_app.
  rewrite pad4_compare by lia.
  cbn [String.compare]. change (Ascii.compare "-" "-") with Eq. cbv iota.
  rewrite pad2_compare by lia.
  cbn [String.compare]. change (Ascii.compare "-" "-") with Eq. cbv iota.
  rewrite pad2_compare by lia.
  destruct (y1 ?= y2), (m1 ?= m2), (d1 ?= d2); reflexivity.
Qed.

Lemma parse_date_format_date (z : Z) (rest : string) :
  four_digit_year z ->
  parse_date (format_date z ++ rest) = Some (z, rest).
Proof.
  unfold four_digit_year, format_date. intros H.
  destruct (civil_from_days z) as [[y m] d] eqn:E.
  destruct (civil_from_days_valid _ _ _ _ E) as [Hm Hd].
  pose proof (days_in_month_le_31 y m). simpl in H.
  rewrite !append_assoc, !sep_app.
  destruct (parse4_pad4 y (String "-" (pad2 m ++ String "-" (pad2 d ++ rest)))
              ltac:(lia)) as (y1 & y2 & y3 & y4 & Ey & Py).
  rewrite Ey.
  destruct (parse2_pad2 m (String "-" (pad2 d ++ rest)) ltac:(lia))
    as (m1 & m2 & Em & Pm).
  rewrite Em.
  destruct (parse2_pad2 d rest ltac:(lia)) as (d1 & d2 & Ed & Pd).
  rewrite Ed. cbn [parse_date]. rewrite Py, Pm, Pd.
  change (Ascii.eqb "-" "-") with true. cbn [andb].
  replace (1 <=? m) with true by (symmetry; apply Z.leb_le; lia).
  replace (m <=? 12) with true by (symmetry; apply Z.leb_le; lia).
  replace (1 <=? d) with true by (symmetry; apply Z.leb_le; lia).
  replace (d <=? days_in_month y m) with true by (symmetry; apply Z.leb_le; lia).
  cbn [andb]. now rewrite (days_from_civil_from_days _ _ _ _ E).
Qed.

Lemma to_datetime_strftime (ts : Z) :
  four_digit_year (ts_day ts) ->
  to_datetime (strftime_Ymd ts) = Ok (Timestamp (ts_day ts)).
Proof.
  intros H. unfold to_datetime, strftime_Ymd.
  rewrite <- (append_nil (format_date (ts_day ts))).
  now rewrite (parse_date_format_date _ "" H).
Qed.

Lemma Period_to_timestamp_W (ts : Z) :
  four_digit_year (week_start (ts_day ts)) ->
  four_digit_year (week_start (ts_day ts) + 6) ->
  Period_to_timestamp (to_period_W_str ts)
  = Ok (Timestamp (week_start (ts_day ts))).
Proof.
  intros H1 H2. unfold Period_to_timestamp, to_period_W_str. cbv zeta.
  rewrite (parse_date_format_date _ _ H1), sep_app.
  rewrite <- (append_nil (format_date (week_start (ts_day ts) + 6))).
  rewrite (parse_date_format_date _ "" H2).
  change (Ascii.eqb "/" "/") with true.
  replace (week_start (ts_day ts) + 6 - week_start (ts_day ts) =? 6) with true
    by (symmetry; apply Z.eqb_eq; ring).
  cbn [andb]. do 2 f_equal. ring.
Qed.

(** First day of the month of a day number. *)
Definition month_start (z : Z) : Z :=
  let '(y, m, _) := civil_from_days z in days_from_civil y m 1.

Lemma Period_to_timestamp_M (ts : Z) :
  four_digit_year (ts_day ts) ->
  Period_to_timestamp (to_period_M_str ts)
  = Ok (Timestamp (month_start (ts_day ts))).
Proof.
  unfold four_digit_year, Period_to_timestamp, to_period_M_str, month_start.
  intros H.
  destruct (civil_from_days (ts_day ts)) as [[y m] d] eqn:E.
  destruct (civil_from_days_valid _ _ _ _ E) as [Hm Hd]. simpl in H.
  rewrite sep_app, <- (append_nil (pad2 m)).
  destruct (parse4_pad4 y (String "-" (pad2 m ++ "")) ltac:(lia))
    as (y1 & y2 & y3 & y4 & Ey & Py).
  rewrite Ey.
  destruct (parse2_pad2 m "" ltac:(lia)) as (m1 & m2 & Em & Pm).
  rewrite Em. cbn [parse_date parse_month]. rewrite Py, Pm.
  change (Ascii.eqb "-" "-") with true. cbn [andb].
  replace (1 <=? m) with true by (symmetry; apply Z.leb_le; lia).
  replace (m <=? 12) with true by (symmetry; apply Z.leb_le; lia).
  reflexivity.
Qed.

Lemma week_start_bounds (z : Z) : z - 6 <= week_start z <= z.
Proof.
  unfold week_start, weekday.
  pose proof (Z.mod_pos_bound (z + 3) 7 ltac:(lia)). lia.
Qed.

Lemma month_start_civil (z y m d : Z) :
  civil_from_days z = (y, m, d) ->
  civil_from_days (month_start z) = (y, m, 1).
Proof.
  intros E. unfold month_start. rewrite E.
  destruct (civil_from_days_valid _ _ _ _ E) as [Hm Hd].
  apply civil_from_days_from_civil. split; [exact Hm | lia].
Qed.


Lemma strftime_compare (a b : Z) :
  four_digit_year (ts_day a) -> four_digit_year (ts_day b) ->
  String.compare (strftime_Ymd a) (strftime_Ymd b) = (ts_day a ?= ts_day b).
Proof.
  intros Ha Hb. unfold strftime_Ymd.
  rewrite <- (append_nil (format_date (ts_day a))).
  rewrite <- (append_nil (format_date (ts_day b))).
  rewrite format_date_compare by assumption.
  now destruct (ts_day a ?= ts_day b).
Qed.

Lemma to_period_W_compare (a b : Z) :
  four_digit_year (week_start (ts_day a)) ->
  four_digit_year (week_start (ts_day b)) ->
  String.compare (to_period_W_str a) (to_period_W_str b)
  = (week_start (ts_day a) ?= week_start (ts_day b)).
Proof.
  intros Ha Hb. unfold to_period_W_str. cbv zeta.
  rewrite format_date_compare by assumption.
  destruct (Z.compare_spec (week_start (ts_day a)) (week_start (ts_day b)))
    as [E|_|_]; try reflexivity.
  cbn [lex]. rewrite E. apply string_compare_refl.
Qed.

Lemma to_period_M_compare (a b : Z) :
  four_digit_year (ts_day a) -> four_digit_year (ts_day b) ->
  String.compare (to_period_M_str a) (to_period_M_str b)
  = (month_start (ts_day a) ?= month_start (ts_day b)).
Proof.
  unfold four_digit_year, to_period_M_str. intros Ha Hb.
  rewrite <- civil_compare.
  destruct (civil_from_days (ts_day a)) as [[y1 m1] d1] eqn:E1.
  destruct (civil_from_days (ts_day b)) as [[y2 m2] d2] eqn:E2.
  rewrite (month_start_civil _ _ _ _ E1), (month_start_civil _ _ _ _ E2).
  destruct (civil_from_days_valid _ _ _ _ E1) as [Hm1 Hd1].
  destruct (civil_from_days_valid _ _ _ _ E2) as [Hm2 Hd2].
  simpl in Ha, Hb.
  rewrite <- date_code_compare by lia.
  rewrite !sep_app.
  rewrite pad4_compare by lia.
  cbn [String.compare]. change (Ascii.compare "-" "-") with Eq. cbv iota.
  rewrite <- (append_nil (pad2 m1)), <- (append_nil (pad2 m2)).
  rewrite pad2_compare by lia.
  destruct (y1 ?= y2), (m1 ?= m2); reflexivity.
Qed.

(** The bounds of [datetime64[ns]]: [Timestamp.min] and [Timestamp.max]. *)
Definition Timestamp_min : Z := -9223372036854775807.
Definition Timestamp_max : Z := 9223372036854775807.

Definition pandas_timestamp (ts : Z) : Prop :=
  Timestamp_min <= ts <= Timestamp_max.

Lemma pandas_timestamp_day (ts : Z) :
  pandas_timestamp ts -> -106752 <= ts_day ts <= 106751.
Proof.
  unfold pandas_timestamp, Timestamp_min, Timestamp_max, ts_day, ns_per_day.
  intros [Hlo Hhi]. split.
  - apply Z.div_le_lower_bound; lia.
  - apply Z.lt_succ_r. apply Z.div_lt_upper_bound; lia.
Qed.

Lemma pandas_timestamp_labels (ts : Z) :
  pandas_timestamp ts ->
  four_digit_year (ts_day ts)
  /\ four_digit_year (week_start (ts_day ts))
  /\ four_digit_year (week_start (ts_day ts) + 6).
Proof.
  intros H. apply pandas_timestamp_day in H.
  pose proof (week_start_bounds (ts_day ts)).
  repeat split; apply four_digit_year_range; lia.
Qed.

End LabelFacts.

(** ** Column operations: [isin], [unique], [sorted], [groupby] *)

Module ColumnFacts.

Definition string_lt (a b : string) : Prop := String.compare a b = Lt.
Definition string_le (a b : string) : Prop := String.leb a b = true.

Lemma isin_In (x : string) (l : list string) : isin x l = true <-> In x l.
Proof.
  unfold isin. rewrite existsb_exists. split.
  - intros (y & Hy & E). apply String.eqb_eq in E. now subst.
  - intros H. exists x. split; [exact H | apply String.eqb_refl].
Qed.

Lemma unique_In (x : string) (l : list string) : In x (unique l) <-> In x l.
Proof.
  induction l as [|a l IH]; [reflexivity|].
  cbn [unique In]. rewrite filter_In, IH, negb_true_iff, String.eqb_neq.
  destruct (string_dec a x) as [->|Hne]; intuition congruence.
Qed.

Lemma unique_NoDup (l : list string) : NoDup (unique l).
Proof.
  induction l as [|a l IH]; cbn [unique]; constructor.
  - rewrite filter_In, negb_true_iff, String.eqb_neq. intros [_ H]. now apply H.
  - now apply NoDup_filter.
Qed.

Lemma unique_nil (l : list string) : unique l = [] -> l = [].
Proof. destruct l; [reflexivity | discriminate]. Qed.

Lemma insert_sorted_perm (x : string) (l : list string) :
  Permutation (insert_sorted x l) (x :: l).
Proof.
  induction l as [|y l IH]; cbn [insert_sorted]; [reflexivity|].
  destruct (String.leb x y); [reflexivity|].
  rewrite IH. apply perm_swap.
Qed.

Lemma sorted_perm (l : list string) : Permutation (sorted l) l.
Proof.
  induction l as [|x l IH]; [reflexivity|].
  unfold sorted in *. cbn [fold_right]. rewrite insert_sorted_perm.
  now constructor.
Qed.

Lemma sorted_In (x : string) (l : list string) : In x (sorted l) <-> In x l.
Proof.
  split; apply Permutation_in; [apply sorted_perm|].
  symmetry. apply sorted_perm.
Qed.

Lemma sorted_NoDup (l : list string) : NoDup l -> NoDup (sorted l).
Proof.
  intros H. eapply Permutation_NoDup; [|exact H]. symmetry. apply sorted_perm.
Qed.

Lemma sorted_length (l : list string) :
  List.length (sorted l) = List.length l.
Proof. apply Permutation_length, sorted_perm. Qed.

Lemma insert_sorted_Sorted (x : string) (l : list string) :
  Sorted string_le l -> Sorted string_le (insert_sorted x l).
Proof.
  induction 1 as [|y l Hs IH Hd]; cbn [insert_sorted].
  - repeat constructor.
  - destruct (String.leb x y) eqn:E.
    + constructor; [now constructor | now constructor].
    + assert (Hyx : string_le y x).
      { destruct (String.leb_total x y) as [C|C]; [congruence | exact C]. }
      constructor; [exact IH|].
      destruct Hd as [|z l' Hz]; cbn [insert_sorted].
      * now constructor.
      * destruct (String.leb x z); now constructor.
Qed.

Lemma sorted_Sorted (l : list string) : Sorted string_le (sorted l).
Proof.
  induction l as [|x l IH]; [constructor|].
  unfold sorted in *. cbn [fold_right]. now apply insert_sorted_Sorted.
Qed.

Lemma string_lt_trans (a b c : string) :
  string_lt a b -> string_lt b c -> string_lt a c.
Proof.
  unfold string_lt. revert b c.
  induction a as [|x a IH]; intros [|y b] [|z c]; cbn [String.compare];
    try discriminate; try reflexivity.
  unfold Ascii.compare.
  destruct (N.compare_spec (N_of_ascii x) (N_of_ascii y)) as [E1|L1|G1];
    destruct (N.compare_spec (N_of_ascii y) (N_of_ascii z)) as [E2|L2|G2];
    try discriminate; intros H1 H2.
  - rewrite E1, E2, N.compare_refl. eapply IH; eassumption.
  - rewrite E1. now apply N.compare_lt_iff in L2 as ->.
  - rewrite <- E2. now apply N.compare_lt_iff in L1 as ->.
  - assert (L : (N_of_ascii x < N_of_ascii z)%N) by lia.
    now apply N.compare_lt_iff in L as ->.
Qed.

Lemma string_le_lt (a b : string) : string_le a b -> a <> b -> string_lt a b.
Proof.
  unfold string_le, string_lt, String.leb. intros H Hne.
  destruct (String.compare a b) eqn:C; try discriminate; [|reflexivity].
  apply String.compare_eq_iff in C. contradiction.
Qed.

Lemma sorted_strict (l : list string) :
  NoDup l -> StronglySorted string_lt (sorted l).
Proof.
  intros Hnd. apply sorted_NoDup in Hnd.
  apply Sorted_StronglySorted; [exact string_lt_trans|].
  pose proof (sorted_Sorted l) as Hs.
  induction Hs as [|x l' Hs IH Hd]; constructor.
  - apply IH. now inversion Hnd.
  - destruct Hd as [|y l'' Hy]; constructor.
    apply string_le_lt; [exact Hy|].
    inversion Hnd as [|? ? Hnin _]; subst. intros ->. apply Hnin. now left.
Qed.




(** The minimum of a group is the date of one of its rows. *)
Lemma fold_min_In (ds : list Z) (d : Z) : In (fold_left Z.min ds d) (d :: ds).
Proof.
  revert d. induction ds as [|x ds IH]; intros d; [now left|].
  cbn [fold_left]. destruct (IH (Z.min d x)) as [E|Hin].
  - rewrite <- E. destruct (Z.min_spec d x) as [[_ ->]|[_ ->]];
      [now left | right; now left].
  - right. now right.
Qed.

Lemma fold_min_le (ds : list Z) :
  forall d x, In x (d :: ds) -> fold_left Z.min ds d <= x.
Proof.
  induction ds as [|y ds IH]; intros d x.
  - intros [->|[]]. cbn. lia.
  - cbn [fold_left]. intros [->|[->|Hin]].
    + etransitivity; [apply (IH _ (Z.min x y)); now left | lia].
    + etransitivity; [apply (IH _ (Z.min d x)); now left | lia].
    + apply IH. now right.
Qed.

Lemma group_min_In (c : string) (rows : list Event) :
  In c (map customer_id rows) ->
  exists e, In e rows /\ customer_id e = c /\ date e = group_min c rows.
Proof.
  intros Hin. unfold group_min.
  destruct (map date (filter (fun e => String.eqb (customer_id e) c) rows))
    as [|d ds] eqn:E.
  - exfalso. apply in_map_iff in Hin as (e & Hc & He).
    assert (In e (filter (fun e => String.eqb (customer_id e) c) rows))
      by (apply filter_In; split; [exact He | now apply String.eqb_eq]).
    apply (in_map date) in H. rewrite E in H. exact H.
  - pose proof (fold_min_In ds d) as Hm. rewrite <- E in Hm.
    apply in_map_iff in Hm as (e & Hd & He).
    apply filter_In in He as [He Hc]. apply String.eqb_eq in Hc.
    exists e. now repeat split.
Qed.

Lemma group_min_le (c : string) (rows : list Event) (e : Event) :
  In e rows -> customer_id e = c -> group_min c rows <= date e.
Proof.
  intros He Hc. unfold group_min.
  assert (Hin : In (date e)
                  (map date (filter (fun e => String.eqb (customer_id e) c) rows))).
  { apply in_map, filter_In. split; [exact He | now apply String.eqb_eq]. }
  destruct (map date _) as [|d ds]; [destruct Hin|].
  now apply fold_min_le.
Qed.

Lemma groupby_min_keys (rows : list Event) :
  map fst (groupby_min rows) = sorted (unique (map customer_id rows)).
Proof.
  unfold groupby_min. rewrite map_map. cbn [fst]. apply map_id.
Qed.

Lemma groupby_min_NoDup (rows : list Event) :
  NoDup (map fst (groupby_min rows)).
Proof. rewrite groupby_min_keys. apply sorted_NoDup, unique_NoDup. Qed.

Lemma groupby_min_In (c : string) (d : Z) (rows : list Event) :
  In (c, d) (groupby_min rows) ->
  In c (map customer_id rows) /\ d = group_min c rows.
Proof.
  unfold groupby_min. intros H. apply in_map_iff in H as (c' & E & Hin).
  injection E as -> <-. split; [|reflexivity].
  now apply unique_In, sorted_In.
Qed.

End ColumnFacts.

(** ** The shape of the result table

    The three loops append blocks of rows; [collect] is the table they
    build, block after block, with the first exception winning. *)

Module EngineFacts.
Import ColumnFacts.

Fixpoint collect {A : Type} (f : A -> result (list RetentionRow.t)) (l : list A)
    : result (list RetentionRow.t) :=
  match l with
  | [] => Ok []
  | x :: t =>
      match f x with
      | Raise e => Raise e
      | Ok b =>
          match collect f t with
          | Raise e => Raise e
          | Ok r => Ok (b ++ r)
          end
      end
  end.

(** The segment, cohort and period of a row. *)
Definition key (r : RetentionRow.t) : string * string * nat :=
  (RetentionRow.segment r, RetentionRow.cohort r, RetentionRow.period r).

Section Blocks.

Variable data : EventLog.
Variable cohort_settings : CohortSettings.
Variable date_range : DateRange.

(** The rows one iteration of the loop over cohorts appends. *)
Definition cohort_block (seg : string) (sc : list CohortRow) (cohort : string)
    : result (list RetentionRow.t) :=
  let cohort_users := cohort_users_of sc cohort in
  if (List.length cohort_users =? 0)%nat then Ok []
  else
    match cohort_start_of cohort_settings cohort with
    | Raise e => Raise e
    | Ok cohort_start =>
        Ok (map (period_row data cohort_settings seg cohort cohort_users
                   cohort_start)
                (range 13))
    end.

(** The labels the loop over cohorts of a segment visits. *)
Definition segment_labels (sc : list CohortRow) : list string :=
  sorted (unique (map cd_cohort sc)).

(** The rows one iteration of the loop over segments appends. *)
Definition segment_block (seg : string) : result (list RetentionRow.t) :=
  match segment_cohorts data cohort_settings date_range seg with
  | Raise e => Raise e
  | Ok sc => collect (cohort_block seg sc) (segment_labels sc)
  end.

Lemma period_loop_app (seg cohort : string) (users : list string) (start : Z)
    (periods : list nat) (acc : list RetentionRow.t) :
  period_loop data cohort_settings seg cohort users start periods acc
  = acc ++ map (period_row data cohort_settings seg cohort users start) periods.
Proof.
  revert acc. induction periods as [|p ps IH]; intros acc; cbn [period_loop map].
  - now rewrite app_nil_r.
  - rewrite IH, <- app_assoc. reflexivity.
Qed.

Lemma cohort_loop_collect (seg : string) (sc : list CohortRow)
    (cohorts : list string) (acc : list RetentionRow.t) :
  cohort_loop data cohort_settings seg sc cohorts acc
  = match collect (cohort_block seg sc) cohorts with
    | Raise e => Raise e
    | Ok rows => Ok (acc ++ rows)
    end.
Proof.
  revert acc. induction cohorts as [|c cs IH]; intros acc;
    cbn [cohort_loop collect].
  - now rewrite app_nil_r.
  - unfold cohort_block at 1.
    destruct (List.length (cohort_users_of sc c) =? 0)%nat.
    + rewrite IH. now destruct (collect _ cs).
    + destruct (cohort_start_of cohort_settings c) as [start|e]; [|reflexivity].
      rewrite IH, period_loop_app.
      destruct (collect _ cs); [|reflexivity]. now rewrite app_assoc.
Qed.

Lemma segment_loop_collect (segments : list string) (acc : list RetentionRow.t) :
  segment_loop data cohort_settings date_range segments acc
  = match collect segment_block segments with
    | Raise e => Raise e
    | Ok rows => Ok (acc ++ rows)
    end.
Proof.
  revert acc. induction segments as [|seg segs IH]; intros acc;
    cbn [segment_loop collect].
  - now rewrite app_nil_r.
  - unfold segment_block at 1.
    destruct (segment_cohorts data cohort_settings date_range seg) as [sc|e];
      [|reflexivity].
    rewrite cohort_loop_collect. fold (segment_labels sc).
    destruct (collect (cohort_block seg sc) (segment_labels sc)) as [b|e];
      [|reflexivity].
    rewrite IH. destruct (collect segment_block segs); [|reflexivity].
    now rewrite app_assoc.
Qed.

Lemma create_cohort_data_try_collect (segments : list string) :
  create_cohort_data_try data cohort_settings date_range segments
  = collect segment_block segments.
Proof.
  unfold create_cohort_data_try. rewrite segment_loop_collect.
  now destruct (collect segment_block segments).
Qed.

End Blocks.

Lemma collect_In {A : Type} (f : A -> result (list RetentionRow.t)) (l : list A)
    (rows : list RetentionRow.t) (r : RetentionRow.t) :
  collect f l = Ok rows -> In r rows ->
  exists x b, In x l /\ f x = Ok b /\ In r b.
Proof.
  revert rows. induction l as [|x l IH]; intros rows; cbn [collect].
  - intros [= <-] [].
  - destruct (f x) as [b|e] eqn:E; [|discriminate].
    destruct (collect f l) as [rest|e]; [|discriminate].
    intros [= <-] Hin. apply in_app_or in Hin as [Hin|Hin].
    + exists x, b. repeat split; [now left | exact E | exact Hin].
    + destruct (IH rest eq_refl Hin) as (y & b' & Hy & Ey & Hr).
      exists y, b'. repeat split; [now right | exact Ey | exact Hr].
Qed.

Lemma collect_map {A B : Type} (f : A -> result (list RetentionRow.t))
    (g : RetentionRow.t -> B) (h : A -> list B) (l : list A) (rows : list RetentionRow.t) :
  (forall x b, In x l -> f x = Ok b -> map g b = h x) ->
  collect f l = Ok rows -> map g rows = flat_map h l.
Proof.
  revert rows. induction l as [|x l IH]; intros rows Hf; cbn [collect flat_map].
  - now intros [= <-].
  - destruct (f x) as [b|e] eqn:E; [|discriminate].
    destruct (collect f l) as [rest|e]; [|discriminate].
    intros [= <-]. rewrite map_app. f_equal.
    + apply Hf; [now left | exact E].
    + apply IH; [|reflexivity]. intros y b' Hy. apply Hf. now right.
Qed.



Lemma collect_ext {A : Type} (f g : A -> result (list RetentionRow.t))
    (h : list RetentionRow.t -> list RetentionRow.t) (l : list A) :
  (forall a b, h (a ++ b) = h a ++ h b) -> h [] = [] ->
  (forall x, In x l ->
     g x = match f x with Ok b => Ok (h b) | Raise e => Raise e end) ->
  collect g l = match collect f l with Ok b => Ok (h b) | Raise e => Raise e end.
Proof.
  intros Happ Hnil. induction l as [|x l IH]; intros Hfg; cbn [collect].
  - now rewrite Hnil.
  - rewrite (Hfg x (or_introl eq_refl)). destruct (f x) as [b|e]; [|reflexivity].
    rewrite IH by (intros y Hy; apply Hfg; now right).
    destruct (collect f l); [|reflexivity]. now rewrite Happ.
Qed.

(** Every label the loop visits names at least one customer of the
    segment, so the [continue] of line 208 is never taken. *)
Lemma segment_labels_users (sc : list CohortRow) (cohort : string) :
  In cohort (segment_labels sc) -> cohort_users_of sc cohort <> [].
Proof.
  unfold segment_labels, cohort_users_of. intros H.
  apply sorted_In, unique_In, in_map_iff in H as (r & E & Hr).
  intros Hnil. apply map_eq_nil in Hnil.
  assert (Hin : In r (filter (fun r => String.eqb (cd_cohort r) cohort) sc))
    by (apply filter_In; split; [exact Hr | now apply String.eqb_eq]).
  rewrite Hnil in Hin. exact Hin.
Qed.

Lemma length_eqb_0 {A : Type} (l : list A) :
  (List.length l =? 0)%nat = false <-> l <> [].
Proof.
  destruct l; cbn; split; intros H; try congruence; try discriminate.
Qed.

Section Rows.

Variable data : EventLog.
Variable cohort_settings : CohortSettings.
Variable date_range : DateRange.
Variable segments : list string.

(** Where a row of the table comes from. *)
Lemma row_origin (rows : list RetentionRow.t) (r : RetentionRow.t) :
  create_cohort_data_try data cohort_settings date_range segments = Ok rows ->
  In r rows ->
  exists seg sc cohort start p,
    In seg segments
    /\ segment_cohorts data cohort_settings date_range seg = Ok sc
    /\ In cohort (segment_labels sc)
    /\ cohort_users_of sc cohort <> []
    /\ cohort_start_of cohort_settings cohort = Ok start
    /\ (p < 13)%nat
    /\ r = period_row data cohort_settings seg cohort
             (cohort_users_of sc cohort) start p.
Proof.
  rewrite create_cohort_data_try_collect. intros Hc Hr.
  destruct (collect_In _ _ _ _ Hc Hr) as (seg & b & Hseg & Eb & Hrb).
  unfold segment_block in Eb.
  destruct (segment_cohorts data cohort_settings date_range seg) as [sc|e] eqn:Esc;
    [|discriminate].
  destruct (collect_In _ _ _ _ Eb Hrb) as (cohort & b' & Hco & Eb' & Hrb').
  pose proof (segment_labels_users _ _ Hco) as Hne.
  unfold cohort_block in Eb'.
  rewrite (proj2 (length_eqb_0 _) Hne) in Eb'.
  destruct (cohort_start_of cohort_settings cohort) as [start|e] eqn:Est;
    [|discriminate].
  assert (Hb' : b' = map (period_row data cohort_settings seg cohort
                               (cohort_users_of sc cohort) start) (range 13))
    by congruence.
  rewrite Hb' in Hrb'. apply in_map_iff in Hrb' as (p & <- & Hp).
  apply in_seq in Hp.
  exists seg, sc, cohort, start, p. repeat split; try assumption. lia.
Qed.

End Rows.

End EngineFacts.

Import CalendarFacts LabelFacts ColumnFacts EngineFacts.

(** ** The end-to-end Daily scenario *)

Definition jan_2024 (d : Z) : Z := days_from_civil 2024 1 d.

Definition scenario_event (c : string) (d : Z) (t : string) : Event :=
  {| customer_id := c; date := Timestamp (jan_2024 d); event_type := t;
     segment := None |}.

Definition scenario_data : EventLog :=
  {| segment_column := false;
     events := [scenario_event "A" 1 "signup"; scenario_event "A" 2 "login";
                scenario_event "A" 20 "login"; scenario_event "B" 1 "signup"] |}.

Definition scenario_settings : CohortSettings :=
  {| cohort_basis := "signup"; cohort_type := "Daily";
     retention_event := "login"; retention_type := "Retention Rate" |}.

Definition scenario_range : DateRange :=
  {| range_start := jan_2024 1; range_end := jan_2024 31 |}.

Definition scenario_table : list RetentionRow.t :=
  snd (create_cohort_data scenario_data scenario_settings scenario_range ["All"]).

(** C1: on the scenario of customers A and B the run shows no error and
    returns 13 rows of cohort 2024-01-01 with cohort size 2, periods 0 to
    12; period 0 is the window from Jan 1 to Jan 2 and has nobody retained;
    period 1 is the window from Jan 2 to Jan 3 and has one customer
    retained, rate 1/2; the event of Jan 20 appears in no row. *)
Theorem daily_scenario :
  fst (create_cohort_data scenario_data scenario_settings scenario_range ["All"])
  = []
  /\ map (fun r => (RetentionRow.segment r, RetentionRow.cohort r, RetentionRow.period r,
                    RetentionRow.cohort_size r, RetentionRow.retained_users r))
         scenario_table
     = [("All", "2024-01-01", 0, 2, 0); ("All", "2024-01-01", 1, 2, 1);
        ("All", "2024-01-01", 2, 2, 0); ("All", "2024-01-01", 3, 2, 0);
        ("All", "2024-01-01", 4, 2, 0); ("All", "2024-01-01", 5, 2, 0);
        ("All", "2024-01-01", 6, 2, 0); ("All", "2024-01-01", 7, 2, 0);
        ("All", "2024-01-01", 8, 2, 0); ("All", "2024-01-01", 9, 2, 0);
        ("All", "2024-01-01", 10, 2, 0); ("All", "2024-01-01", 11, 2, 0);
        ("All", "2024-01-01", 12, 2, 0)]%nat
  /\ Forall2 Qeq (map RetentionRow.rate scenario_table)
       [0; 1 # 2; 0; 0; 0; 0; 0; 0; 0; 0; 0; 0; 0]%Q
  /\ cohort_start_of scenario_settings "2024-01-01"
     = Ok (Timestamp (jan_2024 1))
  /\ period_window scenario_settings (Timestamp (jan_2024 1)) 0
     = (Timestamp (jan_2024 1), Timestamp (jan_2024 2))
  /\ period_window scenario_settings (Timestamp (jan_2024 1)) 1
     = (Timestamp (jan_2024 2), Timestamp (jan_2024 3))
  /\ Forall (fun r => (RetentionRow.period r <= 12)%nat) scenario_table.
Proof.
  split; [reflexivity|]. split; [reflexivity|].
  split; [vm_compute; repeat (constructor; [reflexivity|]); constructor|].
  split; [reflexivity|]. split; [reflexivity|]. split; [reflexivity|].
  vm_compute. repeat (constructor; [lia|]). constructor.
Qed.

(** ** Retention and churn *)

(** The churn row of a retention row. *)
Definition to_churn (r : RetentionRow.t) : RetentionRow.t :=
  {| RetentionRow.cohort := RetentionRow.cohort r;
     RetentionRow.period := RetentionRow.period r;
     RetentionRow.rate := (1 - RetentionRow.rate r)%Q;
     RetentionRow.segment := RetentionRow.segment r;
     RetentionRow.cohort_size := RetentionRow.cohort_size r;
     RetentionRow.retained_users := RetentionRow.retained_users r |}.

Lemma create_cohort_data_try_churn (data : EventLog) (basis type event : string)
    (dr : DateRange) (segs : list string) :
  create_cohort_data_try data
    {| cohort_basis := basis; cohort_type := type;
       retention_event := event; retention_type := "Churn Rate" |} dr segs
  = match create_cohort_data_try data
            {| cohort_basis := basis; cohort_type := type;
               retention_event := event;
               retention_type := "Retention Rate" |} dr segs with
    | Ok rows => Ok (map to_churn rows)
    | Raise e => Raise e
    end.
Proof.
  rewrite !create_cohort_data_try_collect.
  apply collect_ext; [apply map_app | reflexivity |].
  intros seg _. unfold segment_block.
  change (segment_cohorts data {| cohort_basis := basis; cohort_type := type;
            retention_event := event; retention_type := "Churn Rate" |} dr seg)
    with (segment_cohorts data {| cohort_basis := basis; cohort_type := type;
            retention_event := event; retention_type := "Retention Rate" |}
            dr seg).
  destruct (segment_cohorts _ _ _ seg) as [sc|e]; [|reflexivity].
  apply collect_ext; [apply map_app | reflexivity |].
  intros cohort _. unfold cohort_block.
  destruct (List.length (cohort_users_of sc cohort) =? 0)%nat; [reflexivity|].
  change (cohort_start_of {| cohort_basis := basis; cohort_type := type;
            retention_event := event; retention_type := "Churn Rate" |} cohort)
    with (cohort_start_of {| cohort_basis := basis; cohort_type := type;
            retention_event := event; retention_type := "Retention Rate" |}
            cohort).
  destruct (cohort_start_of _ cohort) as [start|e]; [|reflexivity].
  rewrite map_map. reflexivity.
Qed.

(** C4: two runs on the same input that differ only in the mode show the
    same messages and return tables of the same rows, one by one with the
    same segment, cohort, period, cohort size and retained count, and the
    churn rate is 1 minus the retention rate. *)
Theorem churn_retention_duality (data : EventLog) (st_r st_c : CohortSettings)
    (dr : DateRange) (segs : list string) :
  cohort_basis st_c = cohort_basis st_r ->
  cohort_type st_c = cohort_type st_r ->
  retention_event st_c = retention_event st_r ->
  retention_type st_r = "Retention Rate" ->
  retention_type st_c = "Churn Rate" ->
  fst (create_cohort_data data st_c dr segs)
  = fst (create_cohort_data data st_r dr segs)
  /\ Forall2 (fun c r =>
                RetentionRow.segment c = RetentionRow.segment r
                /\ RetentionRow.cohort c = RetentionRow.cohort r
                /\ RetentionRow.period c = RetentionRow.period r
                /\ RetentionRow.cohort_size c = RetentionRow.cohort_size r
                /\ RetentionRow.retained_users c = RetentionRow.retained_users r
                /\ RetentionRow.rate c = (1 - RetentionRow.rate r)%Q)
       (snd (create_cohort_data data st_c dr segs))
       (snd (create_cohort_data data st_r dr segs)).
Proof.
  destruct st_r as [basis type event mode_r], st_c as [b' t' e' mode_c].
  cbn [cohort_basis cohort_type retention_event retention_type].
  intros -> -> -> -> ->.
  unfold create_cohort_data. rewrite create_cohort_data_try_churn.
  destruct (create_cohort_data_try _ _ dr segs) as [rows|e]; cbn [fst snd].
  - split; [reflexivity|].
    induction rows as [|r rows IH]; cbn [map]; constructor; [|exact IH].
    cbn. repeat split.
  - split; [reflexivity | constructor].
Qed.

Lemma churn_retention_duality_witness :
  Forall2 (fun c r => RetentionRow.rate c = (1 - RetentionRow.rate r)%Q)
    (snd (create_cohort_data scenario_data
            {| cohort_basis := "signup"; cohort_type := "Daily";
               retention_event := "login"; retention_type := "Churn Rate" |}
            scenario_range ["All"]))
    scenario_table.
Proof.
  eapply Forall2_impl;
    [|exact (proj2 (churn_retention_duality scenario_data scenario_settings
                      {| cohort_basis := "signup"; cohort_type := "Daily";
                         retention_event := "login";
                         retention_type := "Churn Rate" |}
                      scenario_range ["All"]
                      eq_refl eq_refl eq_refl eq_refl eq_refl))].
  cbv beta. intros c r H. apply H.
Defined.

(** ** Invariants of the rows *)

(** The customers [count_retained] counts. *)
Definition retained_customers (data : EventLog) (st : CohortSettings)
    (cohort_users : list string) (w : Z * Z) : list string :=
  unique (map customer_id
            (filter (fun e => isin (customer_id e) cohort_users
                              && (fst w <=? date e) && (date e <? snd w))
                    (retention_events data st))).

Lemma count_retained_length (data : EventLog) (st : CohortSettings)
    (cohort_users : list string) (w : Z * Z) :
  count_retained data st cohort_users w
  = List.length (retained_customers data st cohort_users w).
Proof. reflexivity. Qed.

Lemma retained_customers_In (data : EventLog) (st : CohortSettings)
    (cohort_users : list string) (w : Z * Z) (c : string) :
  In c (retained_customers data st cohort_users w) <->
  exists e, In e (events data)
            /\ event_type e = retention_event st
            /\ customer_id e = c
            /\ In c cohort_users
            /\ fst w <= date e < snd w.
Proof.
  unfold retained_customers, retention_events.
  rewrite unique_In, in_map_iff. split.
  - intros (e & <- & He). apply filter_In in He as [He Hc].
    apply filter_In in He as [He Ht].
    apply andb_true_iff in Hc as [Hc Hhi]. apply andb_true_iff in Hc as [Hc Hlo].
    apply isin_In in Hc. apply String.eqb_eq in Ht.
    apply Z.leb_le in Hlo. apply Z.ltb_lt in Hhi.
    exists e. repeat split; assumption.
  - intros (e & He & Ht & <- & Hc & Hlo & Hhi).
    exists e. split; [reflexivity|].
    apply filter_In. split.
    + apply filter_In. split; [exact He | now apply String.eqb_eq].
    + rewrite !andb_true_iff. repeat split;
        [now apply isin_In | now apply Z.leb_le | now apply Z.ltb_lt].
Qed.

Lemma count_retained_le (data : EventLog) (st : CohortSettings)
    (cohort_users : list string) (w : Z * Z) :
  (count_retained data st cohort_users w <= List.length cohort_users)%nat.
Proof.
  rewrite count_retained_length. apply NoDup_incl_length.
  - apply unique_NoDup.
  - intros c Hc. apply retained_customers_In in Hc.
    destruct Hc as (e & _ & _ & _ & Hc & _). exact Hc.
Qed.

Lemma ratio_bounds (r n : nat) :
  (r <= n)%nat -> (0 < n)%nat ->
  (0 <= inject_Z (Z.of_nat r) / inject_Z (Z.of_nat n) <= 1)%Q.
Proof.
  intros Hrn Hn.
  assert (Hpos : (0 < inject_Z (Z.of_nat n))%Q).
  { change 0%Q with (inject_Z 0). rewrite <- Zlt_Qlt. lia. }
  split.
  - apply Qle_shift_div_l; [exact Hpos|]. rewrite Qmult_0_l.
    change 0%Q with (inject_Z 0). rewrite <- Zle_Qle. lia.
  - apply Qle_shift_div_r; [exact Hpos|]. rewrite Qmult_1_l.
    rewrite <- Zle_Qle. lia.
Qed.

Lemma rate_of_bounds (st : CohortSettings) (r n : nat) :
  (r <= n)%nat -> (0 < n)%nat -> (0 <= rate_of st r n <= 1)%Q.
Proof.
  intros Hrn Hn. unfold rate_of. cbv zeta.
  destruct (ratio_bounds r n Hrn Hn) as [H0 H1].
  destruct (String.eqb (retention_type st) "Churn Rate"); [|now split].
  split.
  - apply (Qplus_le_l _ _ (inject_Z (Z.of_nat r) / inject_Z (Z.of_nat n))).
    ring_simplify. exact H1.
  - apply (Qplus_le_l _ _ (inject_Z (Z.of_nat r) / inject_Z (Z.of_nat n))).
    ring_simplify.
    apply (Qplus_le_l _ _ (- (1))%Q). ring_simplify. exact H0.
Qed.

(** C5: every row of the returned table has a positive cohort size, a
    retained count between 0 and the cohort size and a rate between 0 and
    1, in retention and in churn mode. *)
Theorem record_invariants (data : EventLog) (st : CohortSettings)
    (dr : DateRange) (segs : list string) (r : RetentionRow.t) :
  In r (snd (create_cohort_data data st dr segs)) ->
  (0 <= RetentionRow.retained_users r <= RetentionRow.cohort_size r)%nat
  /\ (0 < RetentionRow.cohort_size r)%nat
  /\ (0 <= RetentionRow.rate r <= 1)%Q.
Proof.
  unfold create_cohort_data.
  destruct (create_cohort_data_try data st dr segs) as [rows|e] eqn:E;
    cbn [snd]; [|intros []].
  intros Hr.
  destruct (row_origin _ _ _ _ _ _ E Hr)
    as (seg & sc & cohort & start & p & _ & _ & _ & Hne & _ & _ & ->).
  cbn [period_row RetentionRow.retained_users RetentionRow.cohort_size RetentionRow.rate].
  pose proof (count_retained_le data st (cohort_users_of sc cohort)
                (period_window st start p)) as Hle.
  assert (Hpos : (0 < List.length (cohort_users_of sc cohort))%nat)
    by (destruct (cohort_users_of sc cohort); [congruence | cbn; lia]).
  repeat split; try lia; now apply rate_of_bounds.
Qed.

Definition scenario_row_1 : RetentionRow.t :=
  {| RetentionRow.cohort := "2024-01-01"; RetentionRow.period := 1; RetentionRow.rate := 1 # 2;
     RetentionRow.segment := "All"; RetentionRow.cohort_size := 2; RetentionRow.retained_users := 1 |}.

Lemma record_invariants_witness :
  In scenario_row_1 scenario_table
  /\ (0 <= RetentionRow.retained_users scenario_row_1
      <= RetentionRow.cohort_size scenario_row_1)%nat
  /\ (0 < RetentionRow.cohort_size scenario_row_1)%nat
  /\ (0 <= RetentionRow.rate scenario_row_1 <= 1)%Q.
Proof.
  assert (H : In scenario_row_1 scenario_table)
    by (vm_compute; right; left; reflexivity).
  split; [exact H|].
  exact (record_invariants scenario_data scenario_settings scenario_range
           ["All"] scenario_row_1 H).
Defined.

(** ** Segments *)



Lemma cohort_data_customers (data : EventLog) (st : CohortSettings)
    (dr : DateRange) :
  map cd_customer_id (cohort_data data st dr)
  = map fst (groupby_min (filtered_data data st dr)).
Proof. unfold cohort_data. rewrite map_map. reflexivity. Qed.



Definition segment_data : EventLog :=
  {| segment_column := true;
     events :=
       [ {| customer_id := "A"; date := Timestamp (jan_2024 1);
            event_type := "signup"; segment := Some "gold" |};
         {| customer_id := "B"; date := Timestamp (jan_2024 1);
            event_type := "signup"; segment := Some "basic" |};
         {| customer_id := "B"; date := Timestamp (jan_2024 2);
            event_type := "login"; segment := Some "basic" |} ] |}.




(** ** Windows and the date range *)

(** A run whose date range is the single day Jan 1: customer A signs up on
    Jan 1 and logs in on Jan 3, outside the range. *)
Definition unclipped_data : EventLog :=
  {| segment_column := false;
     events := [scenario_event "A" 1 "signup"; scenario_event "A" 3 "login"] |}.

Definition unclipped_range : DateRange :=
  {| range_start := jan_2024 1; range_end := jan_2024 1 |}.

Definition unclipped_row_2 : RetentionRow.t :=
  {| RetentionRow.cohort := "2024-01-01"; RetentionRow.period := 2; RetentionRow.rate := 1 # 1;
     RetentionRow.segment := "All"; RetentionRow.cohort_size := 1; RetentionRow.retained_users := 1 |}.

(** C7: the retained count of a row is the number of customers of the
    cohort with a retention event in the window of the row, taken over all
    rows of the uploaded table: an event of a customer of the cohort inside
    the window counts the customer, whether or not its date lies in the
    date range. *)
Theorem windows_not_clipped (data : EventLog) (st : CohortSettings)
    (dr : DateRange) (segs : list string) (rows : list RetentionRow.t) (r : RetentionRow.t) :
  create_cohort_data_try data st dr segs = Ok rows ->
  In r rows ->
  exists sc start,
    segment_cohorts data st dr (RetentionRow.segment r) = Ok sc
    /\ cohort_start_of st (RetentionRow.cohort r) = Ok start
    /\ RetentionRow.retained_users r
       = List.length
           (retained_customers data st (cohort_users_of sc (RetentionRow.cohort r))
              (period_window st start (RetentionRow.period r)))
    /\ forall e,
         In e (events data) ->
         event_type e = retention_event st ->
         In (customer_id e) (cohort_users_of sc (RetentionRow.cohort r)) ->
         fst (period_window st start (RetentionRow.period r)) <= date e
           < snd (period_window st start (RetentionRow.period r)) ->
         In (customer_id e)
            (retained_customers data st (cohort_users_of sc (RetentionRow.cohort r))
               (period_window st start (RetentionRow.period r)))
         /\ (1 <= RetentionRow.retained_users r)%nat.
Proof.
  intros E Hr.
  destruct (row_origin _ _ _ _ _ _ E Hr)
    as (seg & sc & cohort & start & p & _ & Hsc & _ & _ & Hst & _ & ->).
  cbn [period_row RetentionRow.segment RetentionRow.cohort RetentionRow.period RetentionRow.retained_users].
  exists sc, start. split; [exact Hsc|]. split; [exact Hst|].
  split; [apply count_retained_length|].
  intros e He Ht Hc Hw.
  assert (Hin : In (customer_id e)
                  (retained_customers data st (cohort_users_of sc cohort)
                     (period_window st start p))).
  { apply retained_customers_In. exists e. repeat split; try assumption;
      apply Hw. }
  split; [exact Hin|]. rewrite count_retained_length.
  destruct (retained_customers _ _ _ _); [destruct Hin | cbn; lia].
Qed.

Lemma windows_not_clipped_witness :
  ~ (Timestamp (range_start unclipped_range)
     <= date (scenario_event "A" 3 "login")
     <= Timestamp (range_end unclipped_range))
  /\ In unclipped_row_2
        (snd (create_cohort_data unclipped_data scenario_settings
                unclipped_range ["All"]))
  /\ exists sc start,
       segment_cohorts unclipped_data scenario_settings unclipped_range
         (RetentionRow.segment unclipped_row_2) = Ok sc
       /\ cohort_start_of scenario_settings (RetentionRow.cohort unclipped_row_2)
          = Ok start
       /\ RetentionRow.retained_users unclipped_row_2
          = List.length
              (retained_customers unclipped_data scenario_settings
                 (cohort_users_of sc (RetentionRow.cohort unclipped_row_2))
                 (period_window scenario_settings start
                    (RetentionRow.period unclipped_row_2))).
Proof.
  assert (E : create_cohort_data_try unclipped_data scenario_settings
                unclipped_range ["All"]
              = Ok (snd (create_cohort_data unclipped_data scenario_settings
                           unclipped_range ["All"])))
    by (vm_compute; reflexivity).
  assert (H : In unclipped_row_2
                (snd (create_cohort_data unclipped_data scenario_settings
                        unclipped_range ["All"])))
    by (vm_compute; do 2 right; left; reflexivity).
  split; [vm_compute; intros [_ C]; apply C; reflexivity|].
  split; [exact H|].
  destruct (windows_not_clipped unclipped_data scenario_settings
              unclipped_range ["All"] _ unclipped_row_2 E H)
    as (sc & start & Hsc & Hst & Hn & _).
  exists sc, start. repeat split; assumption.
Defined.

(** ** Empty results and failures *)



Lemma segment_cohorts_incl (data : EventLog) (st : CohortSettings)
    (dr : DateRange) (seg : string) (sc : list CohortRow) :
  segment_cohorts data st dr seg = Ok sc -> incl sc (cohort_data data st dr).
Proof.
  unfold segment_cohorts.
  destruct (negb _); [destruct (segment_column data)|]; intros [= <-].
  - intros r Hr. now apply filter_In in Hr.
  - apply incl_refl.
Qed.


(** A table whose only basis event is before the date range. *)
Definition outside_range : DateRange :=
  {| range_start := jan_2024 10; range_end := jan_2024 31 |}.


(** The claim that a failure can be told from an empty result by the
    returned value, for one failing and one empty run. *)
Definition failure_distinguishable
    (failing empty : EventLog * CohortSettings * DateRange * list string)
    : Prop :=
  let '(d1, s1, r1, g1) := failing in
  let '(d2, s2, r2, g2) := empty in
  (exists e, create_cohort_data_try d1 s1 r1 g1 = Raise e) ->
  create_cohort_data_try d2 s2 r2 g2 = Ok [] ->
  snd (create_cohort_data d1 s1 r1 g1) <> snd (create_cohort_data d2 s2 r2 g2).

(** C9, as stated, fails: the run on [scenario_data], which has no segment
    column, for the segments All and gold raises [KeyError] after the 13
    rows of All were appended, and returns the same value as the run with
    no basis event in range. *)
Lemma failure_not_distinguishable :
  ~ failure_distinguishable
      (scenario_data, scenario_settings, scenario_range, ["All"; "gold"])
      (scenario_data, scenario_settings, outside_range, ["All"]).
Proof.
  unfold failure_distinguishable. intros H. apply H.
  - exists (KeyError "segment"). vm_compute. reflexivity.
  - vm_compute. reflexivity.
  - vm_compute. reflexivity.
Qed.

(** C9, amended: when the body of the [try] raises, the run shows one
    message that ends with the text of the exception and returns the table
    without rows, whatever rows were appended before; that returned value
    is the one of a run that succeeds with no rows. *)
Theorem failure_returns_empty_table (data : EventLog) (st : CohortSettings)
    (dr : DateRange) (segs : list string) (e : exn) :
  create_cohort_data_try data st dr segs = Raise e ->
  create_cohort_data data st dr segs
  = ([("❌ An error occurred while processing the data: " ++ exn_str e)%string],
     [])
  /\ forall data' st' dr' segs',
       create_cohort_data_try data' st' dr' segs' = Ok [] ->
       snd (create_cohort_data data' st' dr' segs')
       = snd (create_cohort_data data st dr segs).
Proof.
  intros E. unfold create_cohort_data. rewrite E. split; [reflexivity|].
  intros data' st' dr' segs' E'. now rewrite E'.
Qed.

Lemma failure_returns_empty_table_witness :
  create_cohort_data_try scenario_data scenario_settings scenario_range
    ["All"; "gold"] = Raise (KeyError "segment")
  /\ create_cohort_data scenario_data scenario_settings scenario_range
       ["All"; "gold"]
     = (["❌ An error occurred while processing the data: 'segment'"], []).
Proof.
  assert (E : create_cohort_data_try scenario_data scenario_settings
                scenario_range ["All"; "gold"] = Raise (KeyError "segment"))
    by (vm_compute; reflexivity).
  split; [exact E|].
  exact (proj1 (failure_returns_empty_table scenario_data scenario_settings
                  scenario_range ["All"; "gold"] (KeyError "segment") E)).
Defined.

(** ** Cohort starts and period windows *)

Lemma ts_day_Timestamp (d : Z) : ts_day (Timestamp d) = d.
Proof. unfold ts_day, Timestamp, ns_per_day. now rewrite Z.div_mul. Qed.

Lemma ts_time_Timestamp (d : Z) : ts_time (Timestamp d) = 0.
Proof. unfold ts_time, Timestamp, ns_per_day. now rewrite Z.mod_mul. Qed.

Lemma Timestamp_compare (a b : Z) : (Timestamp a ?= Timestamp b) = (a ?= b).
Proof.
  unfold Timestamp, ns_per_day.
  destruct (Z.compare_spec a b) as [->|H|H].
  - apply Z.compare_refl.
  - apply Z.compare_lt_iff. lia.
  - apply Z.compare_gt_iff. lia.
Qed.

Lemma Timestamp_lt (a b : Z) : a < b <-> Timestamp a < Timestamp b.
Proof. unfold Z.lt. now rewrite Timestamp_compare. Qed.

Lemma days_in_month_ge_28 (y m : Z) : 28 <= days_in_month y m.
Proof.
  unfold days_in_month.
  repeat match goal with |- context [if ?b then _ else _] => destruct b end; lia.
Qed.

(** First day of the month [k] calendar months after the month [m] of the
    year [y]. *)
Definition first_of_month (y m k : Z) : Z :=
  days_from_civil (y + (m - 1 + k) / 12) ((m - 1 + k) mod 12 + 1) 1.

Lemma DateOffset_months_first (y m k : Z) :
  1 <= m <= 12 ->
  DateOffset_months (Timestamp (days_from_civil y m 1)) k
  = Timestamp (first_of_month y m k).
Proof.
  intros Hm. unfold DateOffset_months, first_of_month.
  rewrite ts_day_Timestamp, ts_time_Timestamp.
  rewrite civil_from_days_from_civil
    by (split; [exact Hm | pose proof (days_in_month_ge_28 y m); lia]).
  cbv zeta.
  rewrite Z.min_l
    by (pose proof (days_in_month_ge_28 (y + (m - 1 + k) / 12)
                      ((m - 1 + k) mod 12 + 1)); lia).
  ring.
Qed.

Lemma first_of_month_0 (y m : Z) :
  1 <= m <= 12 -> first_of_month y m 0 = days_from_civil y m 1.
Proof.
  intros Hm. unfold first_of_month.
  rewrite Z.add_0_r, Z.div_small, Z.mod_small by lia.
  f_equal; ring.
Qed.

Lemma first_of_month_succ (y m k : Z) :
  first_of_month (y + (m - 1 + k) / 12) ((m - 1 + k) mod 12 + 1) 1
  = first_of_month y m (k + 1).
Proof.
  unfold first_of_month.
  pose proof (Z.mod_pos_bound (m - 1 + k) 12 ltac:(lia)) as Hr.
  pose proof (Z.div_mod (m - 1 + k) 12 ltac:(lia)) as Hdm.
  set (q := (m - 1 + k) / 12) in *. set (r := (m - 1 + k) mod 12) in *.
  replace (r + 1 - 1 + 1) with (r + 1) by ring.
  replace (m - 1 + (k + 1)) with ((r + 1) + q * 12) by lia.
  rewrite Z.div_add, Z.mod_add by lia.
  f_equal; ring.
Qed.

Lemma first_of_month_width (y m k : Z) :
  first_of_month y m (k + 1) - first_of_month y m k
  = days_in_month (y + (m - 1 + k) / 12) ((m - 1 + k) mod 12 + 1).
Proof.
  rewrite <- first_of_month_succ.
  pose proof (Z.mod_pos_bound (m - 1 + k) 12 ltac:(lia)) as Hr.
  set (y' := y + (m - 1 + k) / 12). set (m' := (m - 1 + k) mod 12 + 1).
  rewrite <- (month_length y' m') by (unfold m'; lia).
  unfold first_of_month.
  replace (m' - 1 + 1) with m' by ring.
  reflexivity.
Qed.

(** The start of the bucket of an anchor: the day, the Monday of the week
    or the first day of the month. *)
Definition bucket_start (st : CohortSettings) (ts : Z) : Z :=
  if String.eqb (cohort_type st) "Daily" then Timestamp (ts_day ts)
  else if String.eqb (cohort_type st) "Weekly"
       then Timestamp (week_start (ts_day ts))
       else Timestamp (month_start (ts_day ts)).

Lemma cohort_start_label (st : CohortSettings) (ts : Z) :
  pandas_timestamp ts ->
  cohort_start_of st (cohort_label st ts) = Ok (bucket_start st ts).
Proof.
  intros H. destruct (pandas_timestamp_labels ts H) as (Hd & Hw & Hw6).
  unfold cohort_start_of, cohort_label, bucket_start.
  destruct (String.eqb (cohort_type st) "Daily").
  - now apply to_datetime_strftime.
  - destruct (String.eqb (cohort_type st) "Weekly").
    + now apply Period_to_timestamp_W.
    + now apply Period_to_timestamp_M.
Qed.

Lemma cohort_label_compare (st : CohortSettings) (a b : Z) :
  pandas_timestamp a -> pandas_timestamp b ->
  String.compare (cohort_label st a) (cohort_label st b)
  = (bucket_start st a ?= bucket_start st b).
Proof.
  intros Ha Hb.
  destruct (pandas_timestamp_labels a Ha) as (Hda & Hwa & _).
  destruct (pandas_timestamp_labels b Hb) as (Hdb & Hwb & _).
  unfold cohort_label, bucket_start.
  destruct (String.eqb (cohort_type st) "Daily").
  - rewrite Timestamp_compare. now apply strftime_compare.
  - destruct (String.eqb (cohort_type st) "Weekly").
    + rewrite Timestamp_compare. now apply to_period_W_compare.
    + rewrite Timestamp_compare. now apply to_period_M_compare.
Qed.

Lemma cohort_start_monthly (st : CohortSettings) (anchor y m d : Z) :
  cohort_type st = "Monthly" ->
  pandas_timestamp anchor ->
  civil_from_days (ts_day anchor) = (y, m, d) ->
  cohort_start_of st (cohort_label st anchor)
  = Ok (Timestamp (days_from_civil y m 1)).
Proof.
  intros Hty Hts Hciv.
  rewrite (cohort_start_label st anchor Hts). unfold bucket_start.
  rewrite Hty. cbn [String.eqb Ascii.eqb Bool.eqb]. cbv iota.
  unfold month_start. now rewrite Hciv.
Qed.

Lemma period_window_monthly (st : CohortSettings) (y m : Z) (k : nat) :
  cohort_type st = "Monthly" ->
  1 <= m <= 12 ->
  period_window st (Timestamp (days_from_civil y m 1)) k
  = (Timestamp (first_of_month y m (Z.of_nat k)),
     Timestamp (first_of_month y m (Z.of_nat k + 1))).
Proof.
  intros Hty Hm. unfold period_window. rewrite Hty.
  cbn [String.eqb Ascii.eqb Bool.eqb]. cbv iota zeta.
  rewrite (DateOffset_months_first y m (Z.of_nat k) Hm).
  f_equal. unfold first_of_month at 1.
  pose proof (Z.mod_pos_bound (m - 1 + Z.of_nat k) 12 ltac:(lia)).
  rewrite DateOffset_months_first by lia.
  now rewrite first_of_month_succ.
Qed.

(** C2: in Monthly mode the cohort of an anchor in the month [m] of the
    year [y] starts on the first day of that month, and its period [k] is
    the window from the first day of the month [k] calendar months later to
    the first day of the month after that one; the window is as many days
    wide as that calendar month has, between 28 and 31. *)
Theorem monthly_windows (st : CohortSettings) (anchor y m d : Z) (k : nat) :
  cohort_type st = "Monthly" ->
  pandas_timestamp anchor ->
  civil_from_days (ts_day anchor) = (y, m, d) ->
  cohort_start_of st (cohort_label st anchor)
  = Ok (Timestamp (days_from_civil y m 1))
  /\ period_window st (Timestamp (days_from_civil y m 1)) k
     = (Timestamp (first_of_month y m (Z.of_nat k)),
        Timestamp (first_of_month y m (Z.of_nat k + 1)))
  /\ first_of_month y m (Z.of_nat k + 1) - first_of_month y m (Z.of_nat k)
     = days_in_month (y + (m - 1 + Z.of_nat k) / 12)
                     ((m - 1 + Z.of_nat k) mod 12 + 1)
  /\ 28 <= first_of_month y m (Z.of_nat k + 1) - first_of_month y m (Z.of_nat k)
     <= 31.
Proof.
  intros Hty Hts Hciv.
  destruct (civil_from_days_valid _ _ _ _ Hciv) as [Hm _].
  split; [now apply (cohort_start_monthly st anchor y m d)|].
  split; [now apply period_window_monthly|].
  rewrite first_of_month_width. split; [reflexivity|].
  split; [apply days_in_month_ge_28 | apply days_in_month_le_31].
Qed.

Definition monthly_settings : CohortSettings :=
  {| cohort_basis := "signup"; cohort_type := "Monthly";
     retention_event := "login"; retention_type := "Retention Rate" |}.

Lemma monthly_windows_witness :
  civil_from_days (ts_day (Timestamp (jan_2024 15))) = (2024, 1, 15)
  /\ cohort_start_of monthly_settings
       (cohort_label monthly_settings (Timestamp (jan_2024 15)))
     = Ok (Timestamp (days_from_civil 2024 1 1))
  /\ period_window monthly_settings (Timestamp (days_from_civil 2024 1 1)) 1
     = (Timestamp (days_from_civil 2024 2 1),
        Timestamp (days_from_civil 2024 3 1))
  /\ days_from_civil 2024 3 1 - days_from_civil 2024 2 1 = 29.
Proof.
  assert (C : civil_from_days (ts_day (Timestamp (jan_2024 15)))
              = (2024, 1, 15)) by (vm_compute; reflexivity).
  assert (P : pandas_timestamp (Timestamp (jan_2024 15)))
    by (vm_compute; split; discriminate).
  destruct (monthly_windows monthly_settings (Timestamp (jan_2024 15))
              2024 1 15 1 eq_refl P C) as (H1 & H2 & H3 & _).
  split; [exact C|]. split; [exact H1|]. split; [exact H2|].
  vm_compute. reflexivity.
Defined.

(** ** The order of the rows *)

(** The labels for which rows of a segment are appended, in order. *)
Definition emitted_cohorts (data : EventLog) (st : CohortSettings)
    (dr : DateRange) (seg : string) : list string :=
  match segment_cohorts data st dr seg with
  | Ok sc => segment_labels sc
  | Raise _ => []
  end.

(** The start of the first cohort is before the start of the second. *)
Definition starts_before (st : CohortSettings) (c1 c2 : string) : Prop :=
  exists s1 s2,
    cohort_start_of st c1 = Ok s1 /\ cohort_start_of st c2 = Ok s2 /\ s1 < s2.

(** Every date of the table is a value of [datetime64[ns]]. *)
Definition pandas_dates (data : EventLog) : Prop :=
  Forall (fun e => pandas_timestamp (date e)) (events data).

Lemma StronglySorted_In_impl {A : Type} (R R' : A -> A -> Prop) (l : list A) :
  (forall x y, In x l -> In y l -> R x y -> R' x y) ->
  StronglySorted R l -> StronglySorted R' l.
Proof.
  induction l as [|a l IH]; intros Himp Hs; [constructor|].
  inversion Hs as [|? ? Hs' Hall]; subst. constructor.
  - apply IH; [|exact Hs']. intros x y Hx Hy. apply Himp; now right.
  - rewrite Forall_forall in *. intros y Hy.
    apply Himp; [now left | now right | now apply Hall].
Qed.

Lemma cohort_data_label (data : EventLog) (st : CohortSettings)
    (dr : DateRange) (r : CohortRow) :
  In r (cohort_data data st dr) ->
  cd_cohort r = cohort_label st (cd_date r)
  /\ exists e, In e (filtered_data data st dr)
               /\ customer_id e = cd_customer_id r
               /\ date e = cd_date r.
Proof.
  unfold cohort_data. intros H.
  apply in_map_iff in H as ([c d] & <- & Hin). cbn [fst snd cd_cohort cd_date
    cd_customer_id].
  split; [reflexivity|].
  apply groupby_min_In in Hin as [Hc ->].
  destruct (group_min_In _ _ Hc) as (e & He & Hce & Hde).
  exists e. now repeat split.
Qed.

Lemma emitted_cohorts_label (data : EventLog) (st : CohortSettings)
    (dr : DateRange) (seg cohort : string) :
  pandas_dates data ->
  In cohort (emitted_cohorts data st dr seg) ->
  exists ts, pandas_timestamp ts /\ cohort = cohort_label st ts.
Proof.
  unfold emitted_cohorts, pandas_dates. intros Hp Hin.
  destruct (segment_cohorts data st dr seg) as [sc|e] eqn:Esc; [|destruct Hin].
  unfold segment_labels in Hin.
  apply sorted_In, unique_In, in_map_iff in Hin as (r & <- & Hr).
  apply (segment_cohorts_incl _ _ _ _ _ Esc) in Hr.
  destruct (cohort_data_label _ _ _ _ Hr) as (Hl & e & He & _ & Hd).
  exists (cd_date r). split; [|exact Hl].
  rewrite <- Hd. rewrite Forall_forall in Hp. apply Hp.
  unfold filtered_data in He. now apply filter_In in He.
Qed.

(** C6: the rows of a returned table are, segment after segment in the
    order of [segments], for each label of the segment in ascending order
    of the labels, the 13 rows of the periods 0 to 12 in increasing order.
    The labels of a segment are strictly ascending as texts, and when the
    dates of the table are [datetime64[ns]] values they are in
    chronological order of the cohort starts. *)
Theorem row_order (data : EventLog) (st : CohortSettings) (dr : DateRange)
    (segs : list string) (rows : list RetentionRow.t) :
  create_cohort_data_try data st dr segs = Ok rows ->
  map key rows
  = flat_map (fun seg =>
      flat_map (fun cohort =>
        map (fun p => (seg, cohort, p))
            [0; 1; 2; 3; 4; 5; 6; 7; 8; 9; 10; 11; 12]%nat)
        (emitted_cohorts data st dr seg))
      segs
  /\ (forall seg, StronglySorted string_lt (emitted_cohorts data st dr seg))
  /\ (pandas_dates data ->
      forall seg,
        StronglySorted (starts_before st) (emitted_cohorts data st dr seg)).
Proof.
  intros E. split; [|split].
  - rewrite create_cohort_data_try_collect in E.
    refine (collect_map _ _ _ _ _ _ E).
    intros seg b _ Hb. unfold segment_block, emitted_cohorts in *.
    destruct (segment_cohorts data st dr seg) as [sc|e]; [|discriminate].
    refine (collect_map _ _ _ _ _ _ Hb).
    intros cohort b' Hco Hb'.
    pose proof (segment_labels_users _ _ Hco) as Hne.
    unfold cohort_block in Hb'. rewrite (proj2 (length_eqb_0 _) Hne) in Hb'.
    destruct (cohort_start_of st cohort) as [start|e]; [|discriminate].
    assert (Hb'' : b' = map (period_row data st seg cohort
                               (cohort_users_of sc cohort) start) (range 13))
      by congruence.
    rewrite Hb'', map_map. reflexivity.
  - intros seg. unfold emitted_cohorts.
    destruct (segment_cohorts data st dr seg); [|constructor].
    apply sorted_strict, unique_NoDup.
  - intros Hp seg.
    apply (StronglySorted_In_impl string_lt).
    + intros c1 c2 H1 H2 Hlt.
      destruct (emitted_cohorts_label _ _ _ _ _ Hp H1) as (t1 & P1 & ->).
      destruct (emitted_cohorts_label _ _ _ _ _ Hp H2) as (t2 & P2 & ->).
      exists (bucket_start st t1), (bucket_start st t2).
      repeat split; try now apply cohort_start_label.
      unfold string_lt in Hlt. rewrite cohort_label_compare in Hlt by assumption.
      exact Hlt.
    + unfold emitted_cohorts.
      destruct (segment_cohorts data st dr seg); [|constructor].
      apply sorted_strict, unique_NoDup.
Qed.

(** Two customers who sign up in different weeks, the later one first in
    the table. *)
Definition order_data : EventLog :=
  {| segment_column := false;
     events := [scenario_event "A" 10 "signup"; scenario_event "B" 2 "signup"] |}.

Lemma row_order_witness :
  pandas_dates order_data
  /\ emitted_cohorts order_data scenario_settings scenario_range "All"
     = ["2024-01-02"; "2024-01-10"]
  /\ map key (snd (create_cohort_data order_data scenario_settings
                     scenario_range ["All"]))
     = flat_map (fun cohort =>
         map (fun p => ("All", cohort, p))
             [0; 1; 2; 3; 4; 5; 6; 7; 8; 9; 10; 11; 12]%nat)
         ["2024-01-02"; "2024-01-10"]
  /\ StronglySorted (starts_before scenario_settings)
       (emitted_cohorts order_data scenario_settings scenario_range "All").
Proof.
  assert (E : create_cohort_data_try order_data scenario_settings
                scenario_range ["All"]
              = Ok (snd (create_cohort_data order_data scenario_settings
                           scenario_range ["All"])))
    by (vm_compute; reflexivity).
  assert (P : pandas_dates order_data).
  { unfold pandas_dates, order_data. cbn [events].
    repeat constructor; vm_compute; discriminate. }
  destruct (row_order order_data scenario_settings scenario_range ["All"] _ E)
    as (H1 & _ & H3).
  split; [exact P|]. split; [vm_compute; reflexivity|].
  split; [vm_compute; reflexivity|]. exact (H3 P "All").
Defined.

(** ** The opening bucket of Weekly and Monthly cohorts *)






(** ** When the run fails and when it does not *)








Lemma collect_app {A : Type} (f : A -> result (list RetentionRow.t)) (l1 l2 : list A) :
  collect f (l1 ++ l2)
  = match collect f l1 with
    | Raise e => Raise e
    | Ok r1 =>
        match collect f l2 with
        | Raise e => Raise e
        | Ok r2 => Ok (r1 ++ r2)
        end
    end.
Proof.
  induction l1 as [|x l1 IH]; cbn [collect app].
  - now destruct (collect f l2).
  - destruct (f x) as [b|e]; [|reflexivity]. rewrite IH.
    destruct (collect f l1) as [r1|e]; [|reflexivity].
    destruct (collect f l2) as [r2|e]; [|reflexivity].
    now rewrite app_assoc.
Qed.

(** X6: the segments are processed independently and in order.  The table
    of a list of segments followed by another is the table of the first
    followed by the table of the second; a failure in the first list is the
    failure of the whole run, and a failure in the second list discards the
    rows of the first. *)
Theorem segments_compose (data : EventLog) (st : CohortSettings)
    (dr : DateRange) (segs1 segs2 : list string) :
  create_cohort_data_try data st dr (segs1 ++ segs2)
  = match create_cohort_data_try data st dr segs1 with
    | Raise e => Raise e
    | Ok rows1 =>
        match create_cohort_data_try data st dr segs2 with
        | Raise e => Raise e
        | Ok rows2 => Ok (rows1 ++ rows2)
        end
    end.
Proof. rewrite !create_cohort_data_try_collect. apply collect_app. Qed.

(** ** Cohort membership *)

Lemma Timestamp_le_ts (d ts : Z) : Timestamp d <= ts <-> d <= ts_day ts.
Proof.
  unfold Timestamp, ts_day, ns_per_day. split; intros H.
  - apply Z.div_le_lower_bound; lia.
  - pose proof (Z.mul_div_le ts 86400000000000 ltac:(lia)). nia.
Qed.

Lemma ts_le_Timestamp (d ts : Z) :
  ts <= Timestamp d <-> ts_day ts < d \/ ts = Timestamp d.
Proof.
  unfold Timestamp, ts_day, ns_per_day.
  pose proof (Z.div_mod ts 86400000000000 ltac:(lia)) as E.
  pose proof (Z.mod_pos_bound ts 86400000000000 ltac:(lia)) as B.
  split; intros H; nia.
Qed.

(** X5: a basis event qualifies for a cohort when its day is not before
    the start date and it is either before the end date or exactly at
    midnight of the end date: an event later on the end date is left out.
    When the end date is before the start date nothing qualifies. *)
Theorem date_filter_bounds (data : EventLog) (st : CohortSettings)
    (dr : DateRange) :
  (forall e,
      In e (filtered_data data st dr) <->
      In e (events data)
      /\ event_type e = cohort_basis st
      /\ range_start dr <= ts_day (date e)
      /\ (ts_day (date e) < range_end dr
          \/ date e = Timestamp (range_end dr)))
  /\ (range_end dr < range_start dr -> filtered_data data st dr = []).
Proof.
  assert (H : forall e,
      In e (filtered_data data st dr) <->
      In e (events data)
      /\ event_type e = cohort_basis st
      /\ range_start dr <= ts_day (date e)
      /\ (ts_day (date e) < range_end dr
          \/ date e = Timestamp (range_end dr))).
  { intros e. unfold filtered_data.
    rewrite filter_In, !andb_true_iff, String.eqb_eq, !Z.leb_le.
    rewrite Timestamp_le_ts, ts_le_Timestamp. tauto. }
  split; [exact H|].
  intros Hinv. destruct (filtered_data data st dr) as [|e l] eqn:E;
    [reflexivity|exfalso].
  assert (Hin : In e (e :: l)) by now left.
  apply H in Hin as (_ & _ & Hlo & [Hhi|Hhi]); [lia|].
  rewrite Hhi, ts_day_Timestamp in Hlo. lia.
Qed.

(** X4: [cohort_data] has exactly one row for each customer with a basis
    event in range; the date of the row is the date of the earliest such
    event of the customer, and the label of the row is the label of that
    date. *)
Theorem anchor_is_earliest (data : EventLog) (st : CohortSettings)
    (dr : DateRange) :
  NoDup (map cd_customer_id (cohort_data data st dr))
  /\ (forall c,
         In c (map cd_customer_id (cohort_data data st dr)) <->
         In c (map customer_id (filtered_data data st dr)))
  /\ (forall r,
         In r (cohort_data data st dr) ->
         cd_cohort r = cohort_label st (cd_date r)
         /\ (exists e, In e (filtered_data data st dr)
                       /\ customer_id e = cd_customer_id r
                       /\ date e = cd_date r)
         /\ (forall e, In e (filtered_data data st dr) ->
                       customer_id e = cd_customer_id r ->
                       cd_date r <= date e)).
Proof.
  split; [|split].
  - rewrite cohort_data_customers. apply groupby_min_NoDup.
  - intros c. rewrite cohort_data_customers, groupby_min_keys.
    now rewrite sorted_In, unique_In.
  - intros r Hr. destruct (cohort_data_label _ _ _ _ Hr) as (Hl & He).
    split; [exact Hl|]. split; [exact He|].
    intros e Hin Hc. unfold cohort_data in Hr.
    apply in_map_iff in Hr as ([c d] & <- & Hcd).
    cbn [fst snd cd_date cd_customer_id] in *.
    apply groupby_min_In in Hcd as [_ ->]. now apply group_min_le.
Qed.

Fixpoint sum_nat (l : list nat) : nat :=
  match l with
  | [] => 0%nat
  | x :: t => (x + sum_nat t)%nat
  end.

Lemma sum_nat_perm (l l' : list nat) :
  Permutation l l' -> sum_nat l = sum_nat l'.
Proof. induction 1; cbn [sum_nat]; lia. Qed.

Lemma sum_nat_app (l l' : list nat) :
  sum_nat (l ++ l') = (sum_nat l + sum_nat l')%nat.
Proof. induction l as [|x l IH]; cbn [sum_nat app]; lia. Qed.

Lemma filter_length_split {A : Type} (p : A -> bool) (l : list A) :
  List.length l
  = (List.length (filter p l)
     + List.length (filter (fun x => negb (p x)) l))%nat.
Proof.
  induction l as [|x l IH]; [reflexivity|].
  cbn [filter]. destruct (p x); cbn [negb List.length]; lia.
Qed.

Lemma filter_none {A : Type} (p : A -> bool) (l : list A) :
  (forall x, In x l -> p x = false) -> filter p l = [].
Proof.
  induction l as [|x l IH]; intros H; [reflexivity|].
  cbn [filter]. rewrite (H x (or_introl eq_refl)). apply IH.
  intros y Hy. apply H. now right.
Qed.

Lemma filter_filter_absorb {A : Type} (p q : A -> bool) (l : list A) :
  (forall x, p x = true -> q x = true) ->
  filter p (filter q l) = filter p l.
Proof.
  intros H. induction l as [|x l IH]; [reflexivity|].
  cbn [filter]. destruct (q x) eqn:Q; cbn [filter].
  - now rewrite IH.
  - destruct (p x) eqn:P; [|exact IH].
    rewrite (H x P) in Q. discriminate.
Qed.

(** The groups of a column partition the rows. *)
Lemma groups_partition (sc : list CohortRow) (labels : list string) :
  NoDup labels ->
  (forall r, In r sc -> In (cd_cohort r) labels) ->
  sum_nat (map (fun c => List.length (cohort_users_of sc c)) labels)
  = List.length sc.
Proof.
  unfold cohort_users_of. revert sc.
  induction labels as [|c labels IH]; intros sc Hnd Hcov; cbn [map sum_nat].
  - destruct sc as [|r sc]; [reflexivity|].
    destruct (Hcov r (or_introl eq_refl)).
  - inversion Hnd as [|? ? Hnin Hnd']; subst.
    rewrite (filter_length_split (fun r => String.eqb (cd_cohort r) c) sc).
    rewrite length_map. f_equal.
    rewrite <- (IH (filter (fun r => negb (String.eqb (cd_cohort r) c)) sc)
                  Hnd').
    + f_equal. apply map_ext_in. intros c' Hc'. rewrite !length_map.
      f_equal. symmetry. apply filter_filter_absorb. intros r Hr.
      apply String.eqb_eq in Hr. rewrite Hr. apply negb_true_iff.
      apply String.eqb_neq. intros ->. contradiction.
    + intros r Hr. apply filter_In in Hr as [Hr Hne].
      apply negb_true_iff, String.eqb_neq in Hne.
      destruct (Hcov r Hr) as [E|Hin]; [congruence | exact Hin].
Qed.

Lemma segment_labels_partition (sc : list CohortRow) :
  sum_nat (map (fun c => List.length (cohort_users_of sc c))
               (segment_labels sc))
  = List.length sc.
Proof.
  apply groups_partition.
  - apply sorted_NoDup, unique_NoDup.
  - intros r Hr. unfold segment_labels.
    apply sorted_In, unique_In. now apply in_map.
Qed.

(** X3: in a run for one segment every customer of the segment with a basis
    event in range is in exactly one cohort: the cohort sizes of the
    period-0 rows add up to the number of rows of the segment's cohort
    table; for All that is the number of distinct customers with a basis
    event in range. *)
Theorem cohort_sizes_partition (data : EventLog) (st : CohortSettings)
    (dr : DateRange) (seg : string) (rows : list RetentionRow.t)
    (sc : list CohortRow) :
  create_cohort_data_try data st dr [seg] = Ok rows ->
  segment_cohorts data st dr seg = Ok sc ->
  sum_nat (map RetentionRow.cohort_size
             (filter (fun r => (RetentionRow.period r =? 0)%nat) rows))
  = List.length sc
  /\ (seg = "All" ->
      List.length sc
      = nunique (map customer_id (filtered_data data st dr))).
Proof.
  intros E Hsc. split.
  - rewrite create_cohort_data_try_collect in E. cbn [collect] in E.
    unfold segment_block in E. rewrite Hsc in E.
    destruct (collect (cohort_block data st seg sc) (segment_labels sc))
      as [b|e] eqn:Eb; [|discriminate].
    assert (rows = b) by (rewrite app_nil_r in E; congruence). subst rows.
    rewrite <- (segment_labels_partition sc).
    assert (G : forall labels b,
              (forall c, In c labels -> cohort_users_of sc c <> []) ->
              collect (cohort_block data st seg sc) labels = Ok b ->
              sum_nat (map RetentionRow.cohort_size
                         (filter (fun r => (RetentionRow.period r =? 0)%nat) b))
              = sum_nat (map (fun c => List.length (cohort_users_of sc c))
                             labels)).
    { clear. induction labels as [|c labels IH]; intros b Hne Hb;
        cbn [collect] in Hb.
      - injection Hb as <-. reflexivity.
      - unfold cohort_block at 1 in Hb.
        rewrite (proj2 (length_eqb_0 _) (Hne c (or_introl eq_refl))) in Hb.
        destruct (cohort_start_of st c) as [start|e]; [|discriminate].
        destruct (collect _ labels) as [rest|e] eqn:Er; [|discriminate].
        assert (Hb' : b = map (period_row data st seg c
                                 (cohort_users_of sc c) start) (range 13)
                          ++ rest) by congruence.
        rewrite Hb', filter_app, map_app, sum_nat_app.
        rewrite (IH rest) by (auto using in_cons).
        assert (F : filter (fun r => (RetentionRow.period r =? 0)%nat)
                      (map (period_row data st seg c (cohort_users_of sc c)
                              start) (range 13))
                    = [period_row data st seg c (cohort_users_of sc c)
                         start 0]) by reflexivity.
        rewrite F. cbn [map sum_nat period_row RetentionRow.cohort_size]. lia. }
    apply G; [|exact Eb].
    intros c Hc. now apply segment_labels_users.
  - intros ->. unfold segment_cohorts in Hsc. cbn in Hsc.
    injection Hsc as <-.
    rewrite <- (length_map cd_customer_id), cohort_data_customers.
    rewrite groupby_min_keys, sorted_length. reflexivity.
Qed.

Lemma cohort_sizes_partition_witness :
  sum_nat (map RetentionRow.cohort_size
             (filter (fun r => (RetentionRow.period r =? 0)%nat)
                (snd (create_cohort_data order_data scenario_settings
                        scenario_range ["All"]))))
  = 2%nat
  /\ nunique (map customer_id
                (filtered_data order_data scenario_settings scenario_range))
     = 2%nat.
Proof.
  assert (E : create_cohort_data_try order_data scenario_settings
                scenario_range ["All"]
              = Ok (snd (create_cohort_data order_data scenario_settings
                           scenario_range ["All"])))
    by (vm_compute; reflexivity).
  destruct (cohort_sizes_partition order_data scenario_settings
              scenario_range "All" _
              (cohort_data order_data scenario_settings scenario_range)
              E eq_refl) as [H1 H2].
  split.
  - rewrite H1. vm_compute. reflexivity.
  - rewrite <- (H2 eq_refl). vm_compute. reflexivity.
Defined.

(** ** Labels and windows for the three cohort types *)




Lemma period_window_days (st : CohortSettings) (start : Z) (k : nat) :
  String.eqb (cohort_type st) "Daily" = true ->
  period_window st start k
  = (start + Z.of_nat k * ns_per_day, start + (Z.of_nat k + 1) * ns_per_day).
Proof.
  intros H. unfold period_window, Timedelta_days. rewrite H. f_equal. ring.
Qed.

Lemma period_window_weeks (st : CohortSettings) (start : Z) (k : nat) :
  String.eqb (cohort_type st) "Daily" = false ->
  String.eqb (cohort_type st) "Weekly" = true ->
  period_window st start k
  = (start + Z.of_nat k * 7 * ns_per_day,
     start + (Z.of_nat k + 1) * 7 * ns_per_day).
Proof.
  intros H1 H2. unfold period_window, Timedelta_weeks. rewrite H1, H2.
  f_equal. ring.
Qed.

Lemma period_window_months (st : CohortSettings) (y m : Z) (k : nat) :
  String.eqb (cohort_type st) "Daily" = false ->
  String.eqb (cohort_type st) "Weekly" = false ->
  1 <= m <= 12 ->
  period_window st (Timestamp (days_from_civil y m 1)) k
  = (Timestamp (first_of_month y m (Z.of_nat k)),
     Timestamp (first_of_month y m (Z.of_nat k + 1))).
Proof.
  intros H1 H2 Hm. unfold period_window. rewrite H1, H2. cbv zeta.
  rewrite (DateOffset_months_first y m (Z.of_nat k) Hm).
  f_equal. unfold first_of_month at 1.
  pose proof (Z.mod_pos_bound (m - 1 + Z.of_nat k) 12 ltac:(lia)).
  rewrite DateOffset_months_first by lia.
  now rewrite first_of_month_succ.
Qed.

Lemma first_of_month_lt (y m k : Z) :
  first_of_month y m k < first_of_month y m (k + 1).
Proof.
  pose proof (first_of_month_width y m k) as W.
  pose proof (days_in_month_ge_28 (y + (m - 1 + k) / 12)
                ((m - 1 + k) mod 12 + 1)). lia.
Qed.

(** The windows of a cohort start: the first opens at the start, each one
    is not empty and closes where the next one opens. *)
Lemma windows_chain (st : CohortSettings) (anchor : Z) (k : nat) :
  pandas_timestamp anchor ->
  fst (period_window st (bucket_start st anchor) 0) = bucket_start st anchor
  /\ fst (period_window st (bucket_start st anchor) k)
     < snd (period_window st (bucket_start st anchor) k)
  /\ snd (period_window st (bucket_start st anchor) k)
     = fst (period_window st (bucket_start st anchor) (S k)).
Proof.
  intros Hts. unfold bucket_start.
  destruct (String.eqb (cohort_type st) "Daily") eqn:D.
  - rewrite !period_window_days by exact D. cbn [fst snd].
    unfold ns_per_day. repeat split; lia.
  - destruct (String.eqb (cohort_type st) "Weekly") eqn:W.
    + rewrite !period_window_weeks by assumption. cbn [fst snd].
      unfold ns_per_day. repeat split; lia.
    + destruct (civil_from_days (ts_day anchor)) as [[y m] d] eqn:E.
      destruct (civil_from_days_valid _ _ _ _ E) as [Hm _].
      unfold month_start. rewrite E.
      rewrite !period_window_months by assumption. cbn [fst snd].
      split; [now rewrite first_of_month_0|].
      split; [apply (proj1 (Timestamp_lt _ _)), first_of_month_lt|].
      do 2 f_equal. lia.
Qed.

Lemma windows_increase (st : CohortSettings) (anchor : Z) (j k : nat) :
  pandas_timestamp anchor -> (j < k)%nat ->
  snd (period_window st (bucket_start st anchor) j)
  <= fst (period_window st (bucket_start st anchor) k).
Proof.
  intros Hts Hjk. induction Hjk as [|k Hjk IH].
  - destruct (windows_chain st anchor j Hts) as (_ & _ & H). lia.
  - destruct (windows_chain st anchor k Hts) as (_ & H1 & H2). lia.
Qed.

(** X7: the 13 windows of a cohort tile the time from the cohort start on:
    period 0 opens at the cohort start, every window is non-empty and
    closes exactly where the next opens, so a timestamp lies in at most one
    of them, for Daily, Weekly and Monthly cohorts alike. *)
Theorem windows_contiguous (st : CohortSettings) (anchor start : Z) :
  pandas_timestamp anchor ->
  cohort_start_of st (cohort_label st anchor) = Ok start ->
  fst (period_window st start 0) = start
  /\ (forall k,
         fst (period_window st start k) < snd (period_window st start k)
         /\ snd (period_window st start k)
            = fst (period_window st start (S k)))
  /\ (forall j k ts,
         fst (period_window st start j) <= ts < snd (period_window st start j) ->
         fst (period_window st start k) <= ts < snd (period_window st start k) ->
         j = k).
Proof.
  intros Hts Hst. rewrite (cohort_start_label st anchor Hts) in Hst.
  injection Hst as <-.
  split; [apply (windows_chain st anchor 0 Hts)|].
  split; [intros k; apply (windows_chain st anchor k Hts)|].
  intros j k ts Hj Hk.
  destruct (Nat.lt_trichotomy j k) as [L|[E|L]]; [exfalso|exact E|exfalso].
  - pose proof (windows_increase st anchor j k Hts L). lia.
  - pose proof (windows_increase st anchor k j Hts L). lia.
Qed.

Lemma windows_contiguous_witness :
  pandas_timestamp (Timestamp (jan_2024 15))
  /\ cohort_start_of monthly_settings
       (cohort_label monthly_settings (Timestamp (jan_2024 15)))
     = Ok (Timestamp (jan_2024 1))
  /\ snd (period_window monthly_settings (Timestamp (jan_2024 1)) 1)
     = fst (period_window monthly_settings (Timestamp (jan_2024 1)) 2).
Proof.
  assert (P : pandas_timestamp (Timestamp (jan_2024 15)))
    by (vm_compute; split; discriminate).
  assert (S : cohort_start_of monthly_settings
                (cohort_label monthly_settings (Timestamp (jan_2024 15)))
              = Ok (Timestamp (jan_2024 1))) by (vm_compute; reflexivity).
  split; [exact P|]. split; [exact S|].
  exact (proj2 (proj1 (proj2 (windows_contiguous monthly_settings
                                (Timestamp (jan_2024 15))
                                (Timestamp (jan_2024 1)) P S)) 1%nat)).
Defined.

(** ** The basis event as retention event *)









(** ** Segments nobody belongs to *)

Lemma segment_customers_nil (data : EventLog) (seg : string) :
  (forall e, In e (events data) -> segment e <> Some seg) ->
  segment_customers data seg = [].
Proof.
  intros H. unfold segment_customers. rewrite filter_none; [reflexivity|].
  intros e He. specialize (H e He). unfold eqb_segment.
  destruct (segment e) as [x|]; [|reflexivity].
  apply String.eqb_neq. congruence.
Qed.

Lemma segment_block_unknown (data : EventLog) (st : CohortSettings)
    (dr : DateRange) (seg : string) :
  segment_column data = true ->
  seg <> "All" ->
  (forall e, In e (events data) -> segment e <> Some seg) ->
  segment_block data st dr seg = Ok [].
Proof.
  intros Hcol Hne Hno. unfold segment_block, segment_cohorts.
  destruct (String.eqb_spec seg "All") as [E|_]; [contradiction|].
  cbn [negb]. rewrite Hcol, (segment_customers_nil data seg Hno).
  rewrite filter_none by reflexivity. reflexivity.
Qed.

(** X11: a requested segment that no row of the table carries is passed
    over in silence: it raises nothing and adds no row, and the rows of the
    segments around it are the ones of the run without it. *)
Theorem unknown_segment_no_rows (data : EventLog) (st : CohortSettings)
    (dr : DateRange) (segs1 segs2 : list string) (seg : string) :
  segment_column data = true ->
  seg <> "All" ->
  (forall e, In e (events data) -> segment e <> Some seg) ->
  create_cohort_data_try data st dr [seg] = Ok []
  /\ create_cohort_data_try data st dr (segs1 ++ seg :: segs2)
     = create_cohort_data_try data st dr (segs1 ++ segs2).
Proof.
  intros Hcol Hne Hno.
  pose proof (segment_block_unknown data st dr seg Hcol Hne Hno) as B.
  rewrite !create_cohort_data_try_collect. split.
  - cbn [collect]. now rewrite B.
  - rewrite !collect_app. cbn [collect]. rewrite B.
    destruct (collect _ segs1); [|reflexivity].
    now destruct (collect _ segs2).
Qed.

Lemma unknown_segment_no_rows_witness :
  segment_column segment_data = true
  /\ create_cohort_data_try segment_data scenario_settings scenario_range
       ["silver"] = Ok []
  /\ create_cohort_data_try segment_data scenario_settings scenario_range
       (["All"] ++ "silver" :: ["gold"])
     = create_cohort_data_try segment_data scenario_settings scenario_range
         (["All"] ++ ["gold"]).
Proof.
  split; [reflexivity|].
  refine (unknown_segment_no_rows segment_data scenario_settings
            scenario_range ["All"] ["gold"] "silver" eq_refl _ _).
  - discriminate.
  - intros e He. cbn [segment_data events In] in He.
    destruct He as [<-|[<-|[<-|[]]]]; discriminate.
Defined.

(** ** The Segmentation step *)




